(** * shopping-backend: the Express/Prisma handlers of [src/app.js]

    A shallow embedding of the order placement handler ([POST /orders]),
    of the handlers that read or delete what it writes, and of the cookie
    token of [POST /auth/login] and the [auth] middleware.

    - [Js]      : JavaScript strings, [Buffer] and its encodings.
    - [Prisma]  : the datastore (tables, foreign keys, statements, [$transaction]).
    - [App]     : [asyncHandler], [auth] and the route handlers.
    - [Seed]    : the deletions of [src/prisma/seed.js].
    - [Sched]   : handlers suspended at their [await]s, served in any order.
    - [Outcome], [Sample] : vocabulary for the statements, and a small shop.
    - [Routes], [Accounts], [Saved] : the routes that read products and
      orders, the session and user routes, the saved products.
    - [JsFacts], [OrderFacts], [Integrity], [Interleaving], [Token],
      [PlacementFacts], [RaceFacts], [SessionFacts], [SavedFacts] : the facts. *)

From Stdlib Require Import ZArith NArith Lia List String Ascii.
From Stdlib Require Import Floats.PrimFloat Numbers.Cyclic.Int63.Uint63.
From stdpp Require Import gmap strings list fin_maps.

Set Default Proof Using "Type".

(* ===================================================================== *)
(** ** JavaScript strings and Buffers *)
(* ===================================================================== *)

Module Js.

Local Open Scope N_scope.

(** A JavaScript string is a sequence of UTF-16 code units. *)
Abbreviation jsstring := (list N).

(** String literals of the source, written in ASCII. *)
Definition js (s : string) : jsstring :=
  map N_of_ascii (list_ascii_of_string s).

(** A [Buffer] is a sequence of octets. *)
Abbreviation buffer := (list Byte.byte).

Definition octet (n : N) : Byte.byte :=
  match Byte.of_N (n mod 256) with
  | Some b => b
  | None => Byte.x00
  end.

(** *** [Buffer.from(str)]: UTF-8 *)

Definition is_high_surrogate (c : N) : bool := (0xD800 <=? c) && (c <=? 0xDBFF).
Definition is_low_surrogate (c : N) : bool := (0xDC00 <=? c) && (c <=? 0xDFFF).

Definition utf8_of_code_point (cp : N) : buffer :=
  if cp <? 0x80 then [octet cp]
  else if cp <? 0x800 then
    [octet (N.lor 0xC0 (N.shiftr cp 6));
     octet (N.lor 0x80 (N.land cp 0x3F))]
  else if cp <? 0x10000 then
    [octet (N.lor 0xE0 (N.shiftr cp 12));
     octet (N.lor 0x80 (N.land (N.shiftr cp 6) 0x3F));
     octet (N.lor 0x80 (N.land cp 0x3F))]
  else
    [octet (N.lor 0xF0 (N.shiftr cp 18));
     octet (N.lor 0x80 (N.land (N.shiftr cp 12) 0x3F));
     octet (N.lor 0x80 (N.land (N.shiftr cp 6) 0x3F));
     octet (N.lor 0x80 (N.land cp 0x3F))].

(** Unpaired surrogates are encoded as U+FFFD. *)
Fixpoint Buffer_from (s : jsstring) : buffer :=
  match s with
  | [] => []
  | c :: s' =>
      if is_high_surrogate c then
        match s' with
        | d :: s'' =>
            if is_low_surrogate d then
              utf8_of_code_point (0x10000 + (c - 0xD800) * 0x400 + (d - 0xDC00))
                ++ Buffer_from s''
            else utf8_of_code_point 0xFFFD ++ Buffer_from s'
        | [] => utf8_of_code_point 0xFFFD
        end
      else if is_low_surrogate c then utf8_of_code_point 0xFFFD ++ Buffer_from s'
      else utf8_of_code_point c ++ Buffer_from s'
  end.

(** *** [buf.toString("ascii")]: the high bit of every octet is cleared *)

Definition toString_ascii (buf : buffer) : jsstring :=
  map (fun b => N.land (Byte.to_N b) 0x7F) buf.

(** *** base64 *)

Definition pad : N := 61.   (* '=' *)

Definition b64char (i : N) : N :=
  if i <? 26 then 65 + i                 (* 'A'..'Z' *)
  else if i <? 52 then 97 + (i - 26)     (* 'a'..'z' *)
  else if i <? 62 then 48 + (i - 52)     (* '0'..'9' *)
  else if i =? 62 then 43                (* '+' *)
  else 47.                               (* '/' *)

(** The decoder reads a code unit as an octet, its low eight bits. *)
Definition low8 (c : N) : N := N.land c 255.

(** The table of the decoder, which also accepts the URL-safe letters '-'
    and '_'. *)
Definition unbase64 (c : N) : option N :=
  let c := low8 c in
  if (65 <=? c) && (c <=? 90) then Some (c - 65)
  else if (97 <=? c) && (c <=? 122) then Some (c - 97 + 26)
  else if (48 <=? c) && (c <=? 57) then Some (c - 48 + 52)
  else if (c =? 43) || (c =? 45) then Some 62
  else if (c =? 47) || (c =? 95) then Some 63
  else None.

(** The four sextets of a group of three octets. *)
Definition sextet1 (a : N) : N := N.shiftr a 2.
Definition sextet2 (a b : N) : N := N.lor (N.shiftl (N.land a 3) 4) (N.shiftr b 4).
Definition sextet3 (b c : N) : N := N.lor (N.shiftl (N.land b 15) 2) (N.shiftr c 6).
Definition sextet4 (c : N) : N := N.land c 63.

(** [buf.toString("base64")]: a final group of one or two octets is
    completed with zero bits and padded with '='. *)
Fixpoint toString_base64 (buf : buffer) : jsstring :=
  match buf with
  | [] => []
  | [x] =>
      let a := Byte.to_N x in
      [b64char (sextet1 a); b64char (sextet2 a 0); pad; pad]
  | [x; y] =>
      let a := Byte.to_N x in
      let b := Byte.to_N y in
      [b64char (sextet1 a); b64char (sextet2 a b); b64char (sextet3 b 0); pad]
  | x :: y :: z :: rest =>
      let a := Byte.to_N x in
      let b := Byte.to_N y in
      let c := Byte.to_N z in
      b64char (sextet1 a) :: b64char (sextet2 a b)
      :: b64char (sextet3 b c) :: b64char (sextet4 c)
      :: toString_base64 rest
  end.

(** [Buffer.from(str, "base64")]: every code unit is read as its low
    eight bits, characters outside the alphabet are skipped, decoding stops
    at the first '=', and a final group of two or three letters yields one
    or two octets. *)
Fixpoint base64_sextets (s : jsstring) : list N :=
  match s with
  | [] => []
  | c :: s' =>
      match unbase64 c with
      | Some v => v :: base64_sextets s'
      | None => if low8 c =? pad then [] else base64_sextets s'
      end
  end.

Definition octet1 (v1 v2 : N) : Byte.byte :=
  octet (N.lor (N.shiftl v1 2) (N.shiftr v2 4)).
Definition octet2 (v2 v3 : N) : Byte.byte :=
  octet (N.lor (N.shiftl (N.land v2 15) 4) (N.shiftr v3 2)).
Definition octet3 (v3 v4 : N) : Byte.byte :=
  octet (N.lor (N.shiftl (N.land v3 3) 6) v4).

Fixpoint base64_octets (vs : list N) : buffer :=
  match vs with
  | v1 :: v2 :: v3 :: v4 :: rest =>
      octet1 v1 v2 :: octet2 v2 v3 :: octet3 v3 v4 :: base64_octets rest
  | [v1; v2; v3] => [octet1 v1 v2; octet2 v2 v3]
  | [v1; v2] => [octet1 v1 v2]
  | _ => []
  end.

Definition Buffer_from_base64 (s : jsstring) : buffer :=
  base64_octets (base64_sextets s).

(** *** [str.split(sep)] for a one-character separator *)

Fixpoint split (sep : N) (s : jsstring) : list jsstring :=
  match s with
  | [] => [[]]
  | c :: s' =>
      if c =? sep then [] :: split sep s'
      else match split sep s' with
           | piece :: pieces => (c :: piece) :: pieces
           | [] => [[c]]
           end
  end.

Definition colon : N := 58.

(** A JavaScript number holding an integer of a database column. *)
Definition Number_of_Z (z : Z) : float :=
  if (z <? 0)%Z then PrimFloat.opp (PrimFloat.of_uint63 (Uint63.of_Z (- z)))
  else PrimFloat.of_uint63 (Uint63.of_Z z).

(** Truthiness of a possibly [undefined] string. *)
Definition truthy (o : option jsstring) : bool :=
  match o with
  | Some (_ :: _) => true
  | _ => false
  end.

(** The string behind a value known to be truthy. *)
Definition string_of (o : option jsstring) : jsstring :=
  match o with
  | Some s => s
  | None => []
  end.

Definition is_ascii (s : jsstring) : Prop := Forall (fun c => c < 128) s.

(** The numbers below [n], for exhaustive checks. *)
Definition below (n : nat) : list N := map N.of_nat (seq 0 n).

End Js.

(* ===================================================================== *)
(** ** The datastore behind the Prisma client *)
(* ===================================================================== *)

Module Prisma.
Import Js.

Local Open Scope Z_scope.

(** Primary keys are TEXT columns. *)
Abbreviation Id := (list N).

Record User := { email : jsstring; password : jsstring (* the bcrypt hash *) }.

Record Product := { stock : Z; price : float }.

Record Order := { userId : Id }.

(** What [orderItems: { create: ... }] receives for one line item. *)
Record OrderItemInput := { productId : Id; unitPrice : float; quantity : Z }.

(** A row of "OrderItem": the line item and the order it belongs to. *)
Record OrderItem := { orderId : Id; item : OrderItemInput }.

Record Db := {
  users : gmap Id User;
  products : gmap Id Product;
  orders : gmap Id Order;
  orderItems : list OrderItem
}.

Definition set_products (f : gmap Id Product -> gmap Id Product) (db : Db) : Db :=
  {| users := users db; products := f (products db);
     orders := orders db; orderItems := orderItems db |}.

Definition set_orders (f : gmap Id Order -> gmap Id Order) (db : Db) : Db :=
  {| users := users db; products := products db;
     orders := f (orders db); orderItems := orderItems db |}.

Definition set_orderItems (f : list OrderItem -> list OrderItem) (db : Db) : Db :=
  {| users := users db; products := products db;
     orders := orders db; orderItems := f (orderItems db) |}.

(** *** Errors thrown inside a handler *)

Inductive Error :=
| StructError                                   (* superstruct's assert *)
| PrismaClientValidationError
| PrismaClientKnownRequestError (code : string)
| AuthError (message : string)
| JsError (message : string)                    (* new Error(message) *)
| TypeError.

Definition P2002 : Error := PrismaClientKnownRequestError "P2002". (* unique constraint *)
Definition P2003 : Error := PrismaClientKnownRequestError "P2003". (* foreign key constraint *)
Definition P2020 : Error := PrismaClientKnownRequestError "P2020". (* value out of range *)
Definition P2025 : Error := PrismaClientKnownRequestError "P2025". (* record not found *)

Inductive Result (A : Type) :=
| Ok (a : A)
| Err (e : Error).
Arguments Ok {A} a.
Arguments Err {A} e.

#[export] Instance Result_ret : MRet Result := @Ok.
#[export] Instance Result_bind : MBind Result := fun A B f m =>
  match m with
  | Ok a => f a
  | Err e => Err e
  end.

(** [Array.prototype.every] with a callback that may throw. *)
Fixpoint every {A} (f : A -> Result bool) (l : list A) : Result bool :=
  match l with
  | [] => Ok true
  | x :: l' =>
      match f x with
      | Ok true => every f l'
      | Ok false => Ok false
      | Err e => Err e
      end
  end.

(** [Array.prototype.map] with a callback that may throw. *)
Fixpoint mapR {A B} (f : A -> Result B) (l : list A) : Result (list B) :=
  match l with
  | [] => Ok []
  | x :: l' => y ← f x; ys ← mapR f l'; Ok (y :: ys)
  end.

(** *** Statements *)

(** What a statement resolves to. An order carries its line items when
    they are included, and [total] when the handler has set it. *)
Inductive Value :=
| VOrder (id : Id) (order : Order) (items : list OrderItem) (total : option float)
| VProduct (id : Id) (product : Product).

Definition Stmt := Db -> Result (Db * Value).

(** [prisma.product.findMany({ where: { id: { in: ids } } })] *)
Definition product_findMany_in (ids : list Id) (db : Db) : list (Id * Product) :=
  filter (fun row => row.1 ∈ ids) (map_to_list (products db)).

Definition decrement (n : Z) (p : Product) : Product :=
  {| stock := stock p - n; price := price p |}.

(** The range of a Prisma [Int], which the datastore keeps in an INTEGER
    column: a signed 32-bit integer. ([prisma/schema.prisma] is not among
    the sources; the stock of a product and the quantity of an order item
    are such columns.) *)
Definition int4 (z : Z) : bool := (-2147483648 <=? z) && (z <=? 2147483647).

(** [prisma.product.update({ where: { id }, data: { stock: { decrement: n } } })]:
    the datastore refuses a stock that leaves the range of its column. *)
Definition product_update_decrement (id : Id) (n : Z) : Stmt := fun db =>
  match products db !! id with
  | None => Err P2025
  | Some p =>
      if int4 (stock p - n)
      then Ok (set_products <[id := decrement n p]> db, VProduct id (decrement n p))
      else Err P2020
  end.

Definition rows_of (id : Id) (items : list OrderItemInput) : list OrderItem :=
  map (fun i => {| orderId := id; item := i |}) items.

(** [prisma.order.create({ data: { userId, orderItems: { create: items } },
    include: { orderItems: true } })]. [id] is the key the datastore
    generates for the new row. "Order".userId and "OrderItem".productId are
    foreign keys. *)
Definition order_create (id : Id) (userId : Id) (items : list OrderItemInput) : Stmt :=
  fun db =>
    if bool_decide (is_Some (orders db !! id)) then Err P2002
    else if negb (bool_decide (is_Some (users db !! userId))) then Err P2003
    else if negb (forallb (fun i => bool_decide (is_Some (products db !! productId i))) items)
    then Err P2003
    else
      let order := {| userId := userId |} in
      Ok (set_orderItems (fun rows => rows ++ rows_of id items)
            (set_orders <[id := order]> db),
          VOrder id order (rows_of id items) None).

(** The rows of an order, in the order they were inserted. *)
Definition orderItems_of (id : Id) (db : Db) : list OrderItem :=
  filter (fun row => orderId row = id) (orderItems db).

(** [prisma.order.findUniqueOrThrow({ where: { id }, include: { orderItems: true } })] *)
Definition order_findUniqueOrThrow (id : Id) (db : Db) : Result (Order * list OrderItem) :=
  match orders db !! id with
  | None => Err P2025
  | Some order => Ok (order, orderItems_of id db)
  end.

(** [prisma.product.delete({ where: { id } })]: "OrderItem_productId_fkey"
    is ON DELETE RESTRICT. *)
Definition product_delete (id : Id) : Stmt := fun db =>
  match products db !! id with
  | None => Err P2025
  | Some p =>
      if existsb (fun row => bool_decide (productId (item row) = id)) (orderItems db)
      then Err P2003
      else Ok (set_products (delete id) db, VProduct id p)
  end.

(** [prisma.order.delete({ where: { id } })]: "OrderItem_orderId_fkey" is
    ON DELETE RESTRICT. *)
Definition order_delete (id : Id) : Stmt := fun db =>
  match orders db !! id with
  | None => Err P2025
  | Some o =>
      if existsb (fun row => bool_decide (orderId row = id)) (orderItems db)
      then Err P2003
      else Ok (set_orders (delete id) db, VOrder id o [] None)
  end.

(** [prisma.user.findUnique({ where: { email } })] *)
Definition user_findUnique_email (e : jsstring) (db : Db) : option (Id * User) :=
  List.find (fun row => bool_decide (email row.2 = e)) (map_to_list (users db)).

(** [prisma.user.findUniqueOrThrow({ where: { id } })] *)
Definition user_findUniqueOrThrow (id : Id) (db : Db) : Result User :=
  match users db !! id with
  | None => Err P2025
  | Some u => Ok u
  end.

(** *** [prisma.$transaction([...])] *)

Fixpoint run_stmts (stmts : list Stmt) (db : Db) : Result (Db * list Value) :=
  match stmts with
  | [] => Ok (db, [])
  | st :: rest =>
      match st db with
      | Err e => Err e
      | Ok (db1, v) =>
          match run_stmts rest db1 with
          | Err e => Err e
          | Ok (db2, vs) => Ok (db2, v :: vs)
          end
      end
  end.

(** The statements run in order; the first failure rolls everything back. *)
Definition transaction (stmts : list Stmt) (db : Db) : Db * Result (list Value) :=
  match run_stmts stmts db with
  | Ok (db', vs) => (db', Ok vs)
  | Err e => (db, Err e)
  end.

(** A single awaited statement. *)
Definition exec (st : Stmt) (db : Db) : Db * Result Value :=
  match st db with
  | Ok (db', v) => (db', Ok v)
  | Err e => (db, Err e)
  end.

End Prisma.

(* ===================================================================== *)
(** ** The handlers of [src/app.js] *)
(* ===================================================================== *)

Module App.
Import Js Prisma.

Local Open Scope Z_scope.

Inductive Body :=
| NoBody
| Message (message : string)
| ErrorMessage (e : Error)             (* { message: e.message } *)
| Json (v : Value).

Inductive Response :=
| Send (status : Z) (body : Body)
| SendWithCookie (token : jsstring) (status : Z) (body : Body)
| Next (e : Error).                    (* next(e): Express's default error handler *)

(** The [catch] branch of [asyncHandler]. *)
Definition on_error (e : Error) : Response :=
  match e with
  | StructError | PrismaClientValidationError => Send 400 (ErrorMessage e)
  | PrismaClientKnownRequestError code =>
      if String.eqb code "P2025" then Send 404 NoBody else Next e
  | AuthError message =>
      Send 401 (Message (if String.eqb message "" then "Authentication failed" else message))
  | _ => Next e
  end.

Definition asyncHandler (r : Result Response) : Response :=
  match r with
  | Ok response => response
  | Err e => on_error e
  end.

Definition assert {A} (struct : A -> bool) (body : A) : Result unit :=
  if struct body then Ok tt else Err StructError.

(** *** [POST /orders] *)

(** Modelled from the spec: [./structs.js] is not among the sources, its
    [CreateOrder] is taken from the input constraints of section 4.1 (the
    list of line items is non-empty and each quantity is a positive
    integer). *)
Definition CreateOrder (orderItems : list OrderItemInput) : bool :=
  match orderItems with
  | [] => false
  | _ => forallb (fun orderItem => 0 <? quantity orderItem) orderItems
  end.

Definition getQuantity (orderItems : list OrderItemInput) (id : Id) : Result Z :=
  match List.find (fun orderItem => bool_decide (productId orderItem = id)) orderItems with
  | Some orderItem => Ok (quantity orderItem)
  | None => Err TypeError                 (* undefined.quantity *)
  end.

Definition isSufficientStock (orderItems : list OrderItemInput)
    (loaded : list (Id * Product)) : Result bool :=
  every (fun row => q ← getQuantity orderItems row.1; Ok (bool_decide (q <= stock row.2)))
        loaded.

Definition queries (orderItems : list OrderItemInput) (productIds : list Id)
    : Result (list Stmt) :=
  mapR (fun id => q ← getQuantity orderItems id; Ok (product_update_decrement id q))
       productIds.

(** From the start of the handler to the [$transaction] call: the struct
    check, the one read of the products, the stock check and the update
    statements, which are not run yet. *)
Definition prepare (orderItems : list OrderItemInput) (db : Db) : Result (list Stmt) :=
  _ ← assert CreateOrder orderItems;
  let productIds := map productId orderItems in
  let loaded := product_findMany_in productIds db in
  sufficient ← isSufficientStock orderItems loaded;
  if negb sufficient then Err (JsError "Insufficient Stock")
  else queries orderItems productIds.

(** The [$transaction] call and the response. *)
Definition commit (newId userId : Id) (orderItems : list OrderItemInput)
    (qs : list Stmt) (db : Db) : Db * Response :=
  match transaction (order_create newId userId orderItems :: qs) db with
  | (db', Ok (order :: _)) => (db', Send 201 (Json order))
  | (db', Ok []) => (db', Send 201 NoBody)
  | (db', Err e) => (db', on_error e)
  end.

Definition POST_orders (newId userId : Id) (orderItems : list OrderItemInput)
    (db : Db) : Db * Response :=
  match prepare orderItems db with
  | Err e => (db, on_error e)
  | Ok qs => commit newId userId orderItems qs db
  end.

(** *** [GET /orders/:id] *)

Definition add_line (total : float) (orderItem : OrderItem) : float :=
  (total + unitPrice (item orderItem) * Number_of_Z (quantity (item orderItem)))%float.

Definition GET_orders_id (id : Id) (db : Db) : Db * Response :=
  match order_findUniqueOrThrow id db with
  | Err e => (db, on_error e)
  | Ok (order, orderItems) =>
      let total := fold_left add_line orderItems 0%float in
      (db, Send 200 (Json (VOrder id order orderItems (Some total))))
  end.

(** *** [DELETE /products/:id] and [DELETE /orders/:id] *)

Definition DELETE_products_id (id : Id) (db : Db) : Db * Response :=
  match exec (product_delete id) db with
  | (db', Ok _) => (db', Send 204 NoBody)
  | (db', Err e) => (db', on_error e)
  end.

Definition DELETE_orders_id (id : Id) (db : Db) : Db * Response :=
  match exec (order_delete id) db with
  | (db', Ok _) => (db', Send 204 NoBody)
  | (db', Err e) => (db', on_error e)
  end.

(** The requests that write or read products, orders and order items. *)
Inductive Request :=
| PlaceOrder (newId userId : Id) (orderItems : list OrderItemInput)
| GetOrder (id : Id)
| DeleteProduct (id : Id)
| DeleteOrder (id : Id).

Definition handle (req : Request) : Db -> Db * Response :=
  match req with
  | PlaceOrder newId userId orderItems => POST_orders newId userId orderItems
  | GetOrder id => GET_orders_id id
  | DeleteProduct id => DELETE_products_id id
  | DeleteOrder id => DELETE_orders_id id
  end.

(** *** [POST /auth/login] and the [auth] middleware *)

Section Auth.

(** [bcrypt.compare(plain, hash)], an opaque comparator. *)
Variable bcrypt_compare : jsstring -> jsstring -> bool.

(** The [Login] struct of [./structs.js], which is not among the sources. *)
Variable Login : jsstring * jsstring -> bool.

Definition login_token (id : Id) (password : jsstring) : jsstring :=
  toString_base64 (Buffer_from (id ++ colon :: password)).

Definition POST_auth_login (email password : jsstring) (db : Db) : Response :=
  asyncHandler (
    _ ← assert Login (email, password);
    match user_findUnique_email email db with
    | None => Err (AuthError "Invalid credentials")
    | Some (id, user) =>
        if negb (bcrypt_compare password (Prisma.password user))
        then Err (AuthError "Invalid credentials")
        else Ok (SendWithCookie (login_token id password) 200
                   (Message "Logged in successfully"))
    end).

(** What [auth] leaves for the next handler: [req.user], or the response
    of [asyncHandler]. *)
Inductive Authenticated :=
| ReqUser (id : Id) (user : User)
| Denied (r : Response).

Definition decode_token (token : jsstring) : option jsstring * option jsstring :=
  let decoded := toString_ascii (Buffer_from_base64 token) in
  let pieces := split colon decoded in
  (pieces !! 0%nat, pieces !! 1%nat).

(** [cookie] is [req.cookies.token]: the string of the token cookie, or
    [None] when the request has no such cookie. (cookie-parser hands the
    JSON value of a cookie that starts with "j:" instead of a string; the
    middleware is modelled on strings.) *)
Definition auth (cookie : option jsstring) (db : Db) : Authenticated :=
  if negb (truthy cookie) then Denied (on_error (AuthError "No token provided"))
  else
    let token := string_of cookie in
    let '(userId, password) := decode_token token in
    if negb (truthy userId) || negb (truthy password)
    then Denied (on_error (AuthError "Invalid token format"))
    else
      let userId := string_of userId in
      let password := string_of password in
      match user_findUniqueOrThrow userId db with
      | Err e => Denied (on_error e)
      | Ok user =>
          if negb (bcrypt_compare password (Prisma.password user))
          then Denied (on_error (AuthError "Invalid credentials in token"))
          else ReqUser userId user
      end.

End Auth.

End App.

(* ===================================================================== *)
(** ** The clearing of the tables in [src/prisma/seed.js] *)
(* ===================================================================== *)

Module Seed.
Import Js Prisma.

(** [prisma.orderItem.deleteMany()] *)
Definition orderItem_deleteMany (db : Db) : Result Db :=
  Ok (set_orderItems (fun _ => []) db).

(** [prisma.order.deleteMany()]: fails while an order item references an
    order ("OrderItem_orderId_fkey" is ON DELETE RESTRICT). *)
Definition order_deleteMany (db : Db) : Result Db :=
  if existsb (fun row => bool_decide (is_Some (orders db !! orderId row))) (orderItems db)
  then Err P2003
  else Ok (set_orders (fun _ => ∅) db).

(** [prisma.user.deleteMany()]. The rule of the foreign key of "Order" on
    its user is not among the sources; the orders are gone by then. *)
Definition user_deleteMany (db : Db) : Result Db :=
  Ok {| users := ∅; products := products db; orders := orders db;
        orderItems := orderItems db |}.

(** [prisma.product.deleteMany()]: fails while an order item references a
    product ("OrderItem_productId_fkey" is ON DELETE RESTRICT). *)
Definition product_deleteMany (db : Db) : Result Db :=
  if existsb (fun row => bool_decide (is_Some (products db !! productId (item row))))
             (orderItems db)
  then Err P2003
  else Ok (set_products (fun _ => ∅) db).

(** The deletions of [main], in its order. *)
Definition clear (db : Db) : Result Db :=
  db ← orderItem_deleteMany db;
  db ← order_deleteMany db;
  db ← user_deleteMany db;
  product_deleteMany db.

Definition empty : Db := {| users := ∅; products := ∅; orders := ∅; orderItems := [] |}.

End Seed.

(* ===================================================================== *)
(** ** Requests in flight *)
(* ===================================================================== *)

(** A handler is suspended at each [await]; the datastore call it waits
    for runs against the datastore as it is when the call is served. *)
Module Sched.
Import Js Prisma App.

#[warnings="-register-all"]
Inductive Task :=
| Await (k : Db -> Db * Task)
| Responded (r : Response).

(** [POST /orders] awaits [findMany], then [$transaction]. *)
Definition POST_orders_task (newId userId : Id) (orderItems : list OrderItemInput) : Task :=
  Await (fun db =>
    match prepare orderItems db with
    | Err e => (db, Responded (on_error e))
    | Ok qs =>
        (db, Await (fun db' =>
               let '(db'', r) := commit newId userId orderItems qs db' in
               (db'', Responded r)))
    end).

(** Serve the pending call of task [i]. *)
Definition step (i : nat) (st : Db * list Task) : Db * list Task :=
  match st.2 !! i with
  | Some (Await k) => let '(db', t') := k st.1 in (db', <[i := t']> st.2)
  | _ => st
  end.

Definition run (schedule : list nat) (st : Db * list Task) : Db * list Task :=
  foldl (fun st i => step i st) st schedule.

Definition responses (tasks : list Task) : list (option Response) :=
  map (fun t => match t with Responded r => Some r | Await _ => None end) tasks.

(** The orders in which the calls of two requests can be served. *)
Inductive Interleave {A} : list A -> list A -> list A -> Prop :=
| interleave_nil : Interleave [] [] []
| interleave_l x l1 l2 l : Interleave l1 l2 l -> Interleave (x :: l1) l2 (x :: l)
| interleave_r x l1 l2 l : Interleave l1 l2 l -> Interleave l1 (x :: l2) (x :: l).

(** Requests served one after the other. *)
Definition serve (reqs : list Request) (db : Db) : Db :=
  foldl (fun db req => (handle req db).1) db reqs.

End Sched.

(* ===================================================================== *)
(** ** Vocabulary for the outcome of a placement *)
(* ===================================================================== *)

Module Outcome.
Import Js Prisma App.

Local Open Scope Z_scope.

(** The quantity [getQuantity] finds for a product: the one of the first
    line item that names it. *)
Definition quantity_of (orderItems : list OrderItemInput) (id : Id) : Z :=
  match List.find (fun orderItem => bool_decide (productId orderItem = id)) orderItems with
  | Some orderItem => quantity orderItem
  | None => 0
  end.

(** The stock check as one boolean. *)
Definition sufficient (orderItems : list OrderItemInput) (db : Db) : bool :=
  forallb (fun row => bool_decide (quantity_of orderItems row.1 <= stock row.2))
          (product_findMany_in (map productId orderItems) db).

(** The update statements the handler builds: one per line item. *)
Definition updates (orderItems : list OrderItemInput) : list Stmt :=
  map (fun id => product_update_decrement id (quantity_of orderItems id))
      (map productId orderItems).

Definition decrement_all (q : Id -> Z) (ids : list Id) (m : gmap Id Product)
    : gmap Id Product :=
  foldl (fun m id => alter (decrement (q id)) id m) m ids.

(** Whether the updates, run in this order, all leave the stock of their
    product within the range of its column. *)
Fixpoint decrements_fit (q : Id -> Z) (ids : list Id) (m : gmap Id Product) : bool :=
  match ids with
  | [] => true
  | id :: ids' =>
      match m !! id with
      | Some p =>
          int4 (stock p - q id)
          && decrements_fit q ids' (<[id := decrement (q id) p]> m)
      | None => decrements_fit q ids' m
      end
  end.

Definition stock_fits (orderItems : list OrderItemInput) (db : Db) : bool :=
  decrements_fit (quantity_of orderItems) (map productId orderItems) (products db).

(** Quantities that an INTEGER column holds. *)
Definition int4_quantities (orderItems : list OrderItemInput) : Prop :=
  forall i, i ∈ orderItems -> quantity i <= 2147483647.

(** Stocks that an INTEGER column holds. *)
Definition int4_stocks (db : Db) : Prop :=
  forall id p, products db !! id = Some p -> int4 (stock p) = true.

(** The datastore after a successful placement. *)
Definition placed (newId userId : Id) (orderItems : list OrderItemInput) (db : Db) : Db :=
  {| users := users db;
     products := decrement_all (quantity_of orderItems) (map productId orderItems)
                               (products db);
     orders := <[newId := {| userId := userId |}]> (orders db);
     orderItems := Prisma.orderItems db ++ rows_of newId orderItems |}.

Definition created (newId userId : Id) (orderItems : list OrderItemInput) : Response :=
  Send 201 (Json (VOrder newId {| userId := userId |} (rows_of newId orderItems) None)).

Definition all_products_exist (orderItems : list OrderItemInput) (db : Db) : bool :=
  forallb (fun i => bool_decide (is_Some (products db !! productId i))) orderItems.

(** How many line items name product [k]. *)
Definition lines_of (k : Id) (ids : list Id) : nat :=
  length (filter (fun id => id = k) ids).

Record integrity (db : Db) : Prop := {
  order_user : forall id o, orders db !! id = Some o -> is_Some (users db !! userId o);
  item_order : forall row, row ∈ orderItems db -> is_Some (orders db !! orderId row);
  item_product : forall row, row ∈ orderItems db ->
                 is_Some (products db !! productId (item row))
}.

Definition stock_nonneg (db : Db) : Prop :=
  forall id p, products db !! id = Some p -> 0 <= stock p.

(** The sum [GET /orders/:id] accumulates, over line items. *)
Definition sum_lines (orderItems : list OrderItemInput) : float :=
  fold_left (fun total i => (total + unitPrice i * Number_of_Z (quantity i))%float)
            orderItems 0%float.

(** Line items that name pairwise different products. *)
Definition distinct_lines (req : Request) : Prop :=
  match req with
  | PlaceOrder _ _ orderItems => NoDup (map productId orderItems)
  | _ => True
  end.

End Outcome.

(* ===================================================================== *)
(** ** A small shop, for the concrete cases *)
(* ===================================================================== *)

Module Sample.
Import Js Prisma App Sched.

Local Open Scope Z_scope.

Definition U : Id := js "u1".
Definition P : Id := js "p1".
Definition Q : Id := js "p2".
Definition O1 : Id := js "o1".
Definition O2 : Id := js "o2".

(** One user and one product [P] with the given stock, priced 5.00. *)
Definition shop (n : Z) : Db :=
  {| users := {[ U := {| email := js "u1@example.com"; password := js "hash" |} ]};
     products := {[ P := {| stock := n; price := 5.0%float |} ]};
     orders := ∅;
     orderItems := [] |}.

Definition line (id : Id) (q : Z) : OrderItemInput :=
  {| productId := id; unitPrice := 5.0%float; quantity := q |}.

Definition stock_of (id : Id) (db : Db) : option Z := stock <$> products db !! id.

(** The shop after one placement: [P] is referenced by an order item. *)
Definition shop_with_order : Db := (POST_orders O1 U [line P 3] (shop 10)).1.

Definition insufficient_stock : Response := Next (JsError "Insufficient Stock").

(** A stand-in for bcrypt in the concrete cases: the hash of a password
    is the password itself. *)
Definition same_password (plain hash : jsstring) : bool := bool_decide (plain = hash).

Definition any_login (body : jsstring * jsstring) : bool := true.

(** One user whose password is the given string. *)
Definition members (password : jsstring) : Db :=
  {| users := {[ U := {| email := js "u1@example.com"; password := password |} ]};
     products := ∅; orders := ∅; orderItems := [] |}.

(** Two placements of quantity 6 against a stock of 10. *)
Definition two_placements : Db * list Task :=
  (shop 10, [POST_orders_task O1 U [line P 6]; POST_orders_task O2 U [line P 6]]).

End Sample.

(* ===================================================================== *)
(** ** The routes that read products and orders *)
(* ===================================================================== *)

Module Routes.
Import Js Prisma App Sched Outcome.

Local Open Scope Z_scope.

(** A response whose body is an array of rows. *)
Inductive Rows (A : Type) :=
| SendRows (status : Z) (rows : list A)
| NoRows (r : Response).
Arguments SendRows {A} status rows.
Arguments NoRows {A} r.

(** [GET /products/:id]: [findUnique] resolves to [null] when no product
    has the id, and [res.send(null)] is an empty 200. *)
Definition GET_products_id (id : Id) (db : Db) : Db * Response :=
  match products db !! id with
  | Some product => (db, Send 200 (Json (VProduct id product)))
  | None => (db, Send 200 NoBody)
  end.

(** [GET /orders] *)
Definition GET_orders (db : Db) : Rows (Id * Order) :=
  SendRows 200 (map_to_list (orders db)).

(** [GET /users/:id/orders] *)
Definition GET_users_id_orders (id : Id) (db : Db) : Rows (Id * Order) :=
  match user_findUniqueOrThrow id db with
  | Err e => NoRows (on_error e)
  | Ok _ => SendRows 200 (filter (fun row => userId row.2 = id) (map_to_list (orders db)))
  end.

(** The second suspension of [POST /orders]: the [$transaction] call is
    pending with the statements built from the earlier read. *)
Definition commit_task (newId userId : Id) (orderItems : list OrderItemInput)
    (qs : list Stmt) : Task :=
  Await (fun db =>
    let '(db', r) := commit newId userId orderItems qs db in (db', Responded r)).

(** A request in flight. The handlers other than [POST /orders] await one
    datastore call. *)
Definition task_of (req : Request) : Task :=
  match req with
  | PlaceOrder newId userId orderItems => POST_orders_task newId userId orderItems
  | _ => Await (fun db => let '(db', r) := handle req db in (db', Responded r))
  end.

(** Whether a request has been answered 201. *)
Definition answered_201 (t : Task) : bool :=
  match t with
  | Responded (Send 201 _) => true
  | _ => false
  end.

(** What a placement takes off the stock of product [k] when it is
    accepted; the other requests take nothing. *)
Definition debit (k : Id) (req : Request) : Z :=
  match req with
  | PlaceOrder _ _ orderItems =>
      Z.of_nat (lines_of k (map productId orderItems)) * quantity_of orderItems k
  | _ => 0
  end.

Definition charge (k : Id) (req : Request) (t : Task) : Z :=
  if answered_201 t then debit k req else 0.

(** The debits of the requests answered 201 so far. *)
Definition debited (k : Id) (reqs : list Request) (tasks : list Task) : Z :=
  foldr Z.add 0 (zip_with (charge k) reqs tasks).

(** Where the handler of a request can be: not started, suspended at the
    [$transaction] of a placement whose stock check passed, or done. *)
Inductive task_state : Request -> Task -> Prop :=
| state_received req : task_state req (task_of req)
| state_committing newId userId orderItems :
    task_state (PlaceOrder newId userId orderItems)
               (commit_task newId userId orderItems (updates orderItems))
| state_responded req r : task_state req (Responded r).


End Routes.

(* ===================================================================== *)
(** ** The session and user routes *)
(* ===================================================================== *)

Module Accounts.
Import Js Prisma App.

Local Open Scope Z_scope.

(** A response whose body is a user row. *)
Inductive UserResponse :=
| SendUser (status : Z) (id : Id) (user : User)
| NoUser (r : Response).

(** What a response does to the "token" cookie of the client. *)
Inductive Cookie :=
| Kept
| Stored (token : jsstring)
| Cleared.

Definition cookie_of (r : Response) : Cookie :=
  match r with
  | SendWithCookie token _ _ => Stored token
  | _ => Kept
  end.

(** [req.cookies.token] of the next request. *)
Definition next_cookie (c : Cookie) (jar : option jsstring) : option jsstring :=
  match c with
  | Kept => jar
  | Stored token => Some token
  | Cleared => None
  end.

(** [POST /auth/logout]: [res.clearCookie("token")], then 200. *)
Definition POST_auth_logout : Cookie * Response :=
  (Cleared, Send 200 (Message "Logged out successfully")).

Definition set_users (f : gmap Id User -> gmap Id User) (db : Db) : Db :=
  {| users := f (users db); products := products db;
     orders := orders db; orderItems := orderItems db |}.

Definition email_taken (e : jsstring) (db : Db) : bool :=
  bool_decide (is_Some (user_findUnique_email e db)).

(** [prisma.user.create({ data })]: the id and the email are unique.
    [id] is the key the datastore generates. *)
Definition user_create (id : Id) (user : User) (db : Db) : Result Db :=
  if bool_decide (is_Some (users db !! id)) then Err P2002
  else if email_taken (email user) db then Err P2002
  else Ok (set_users <[id := user]> db).

(** [prisma.user.update({ where: { id }, data })]; a field that is
    [undefined] is left as it is. *)
Definition user_update (id : Id) (newEmail newPassword : option jsstring) (db : Db)
    : Result (Db * User) :=
  match users db !! id with
  | None => Err P2025
  | Some user =>
      let user' := {| email := default (email user) newEmail;
                      password := default (password user) newPassword |} in
      if email_taken (email user') (set_users (delete id) db) then Err P2002
      else Ok (set_users <[id := user']> db, user')
  end.

Section Handlers.

(** [bcrypt.compare(plain, hash)] and [bcrypt.hash(plain, 10)], the latter
    with the salt it draws. *)
Variable bcrypt_compare : jsstring -> jsstring -> bool.
Variable bcrypt_hash : jsstring -> jsstring -> jsstring.

(** The [CreateUser] and [PatchUser] structs of [./structs.js], which is
    not among the sources, on the two fields of a user that are modelled. *)
Variable CreateUser : jsstring * jsstring -> bool.
Variable PatchUser : option jsstring * option jsstring -> bool.

(** [GET /users/me]: [auth], then [res.send(req.user)]. *)
Definition GET_users_me (cookie : option jsstring) (db : Db) : UserResponse :=
  match auth bcrypt_compare cookie db with
  | ReqUser id user => SendUser 200 id user
  | Denied r => NoUser r
  end.

(** [GET /users/:id] *)
Definition GET_users_id (id : Id) (db : Db) : UserResponse :=
  match user_findUniqueOrThrow id db with
  | Ok user => SendUser 200 id user
  | Err e => NoUser (on_error e)
  end.

(** [POST /users] *)
Definition POST_users (newId salt : Id) (email password : jsstring) (db : Db)
    : Db * UserResponse :=
  match assert CreateUser (email, password) with
  | Err e => (db, NoUser (on_error e))
  | Ok _ =>
      let hashedPassword := bcrypt_hash salt password in
      let user := {| email := email; password := hashedPassword |} in
      match user_create newId user db with
      | Err e => (db, NoUser (on_error e))
      | Ok db' => (db', SendUser 201 newId user)
      end
  end.

(** [PATCH /users/:id]: a password that is truthy is hashed first. *)
Definition PATCH_users_id (id salt : Id) (email password : option jsstring) (db : Db)
    : Db * UserResponse :=
  match assert PatchUser (email, password) with
  | Err e => (db, NoUser (on_error e))
  | Ok _ =>
      let password :=
        if truthy password then Some (bcrypt_hash salt (string_of password))
        else password in
      match user_update id email password db with
      | Err e => (db, NoUser (on_error e))
      | Ok (db', user) => (db', SendUser 200 id user)
      end
  end.

End Handlers.

(** The refusals of the login and of [auth]. *)
Definition invalid_credentials : Response := Send 401 (Message "Invalid credentials").
Definition no_token : Response := Send 401 (Message "No token provided").
Definition invalid_format : Response := Send 401 (Message "Invalid token format").
Definition invalid_token : Response := Send 401 (Message "Invalid credentials in token").

(** The text a string cookie decodes to has no U+0000 in its first piece:
    a TEXT parameter of the datastore cannot hold that character. *)
Definition id_without_nul (cookie : option jsstring) : Prop :=
  forall id, (decode_token (string_of cookie)).1 = Some id -> 0%N ∉ id.

(** No two users share an email. *)
Definition unique_emails (db : Db) : Prop :=
  forall i j u v, users db !! i = Some u -> users db !! j = Some v ->
                  email u = email v -> i = j.

(** The ids of the users are non-empty ASCII strings without ':', as the
    UUIDs the datastore generates are. *)
Definition plain_ids (db : Db) : Prop :=
  forall id, is_Some (users db !! id) -> is_ascii id /\ (colon ∉ id) /\ id <> [].

(** Stand-ins for the concrete cases: a hash that is the password itself,
    and a struct that accepts every body. *)
Definition plain_hash (salt plain : jsstring) : jsstring := plain.
Definition any_patch (body : option jsstring * option jsstring) : bool := true.

End Accounts.

(* ===================================================================== *)
(** ** Saved products *)
(* ===================================================================== *)

Module Saved.
Import Js Prisma App Routes.

Local Open Scope Z_scope.

(** The datastore with the relation between users and the products they
    saved: the rows (user, product) of "_ProductToUser". *)
Record Store := { data : Db; links : gset (Id * Id) }.

(** [include: { savedProducts: true }] for one user. *)
Definition savedProducts (userId : Id) (st : Store) : list (Id * Product) :=
  filter (fun row => (userId, row.1) ∈ links st) (map_to_list (products (data st))).

(** [prisma.user.count({ where: { id, savedProducts: { some: { id: productId } } } })] *)
Definition user_count_saved (userId productId : Id) (st : Store) : Z :=
  if bool_decide (is_Some (users (data st) !! userId) /\ (userId, productId) ∈ links st)
  then 1 else 0.

(** [prisma.user.update({ where: { id }, data: { savedProducts: { disconnect:
    { id: productId } } }, include: { savedProducts: true } })] *)
Definition user_disconnect (userId productId : Id) (st : Store)
    : Result (Store * list (Id * Product)) :=
  match users (data st) !! userId with
  | None => Err P2025
  | Some _ =>
      let st' := {| data := data st; links := links st ∖ {[ (userId, productId) ]} |} in
      Ok (st', savedProducts userId st')
  end.

(** The same with [connect]: the product to connect has to exist. *)
Definition user_connect (userId productId : Id) (st : Store)
    : Result (Store * list (Id * Product)) :=
  match users (data st) !! userId with
  | None => Err P2025
  | Some _ =>
      match products (data st) !! productId with
      | None => Err P2025
      | Some _ =>
          let st' := {| data := data st; links := links st ∪ {[ (userId, productId) ]} |} in
          Ok (st', savedProducts userId st')
      end
  end.

(** The store with the link between a user and a product flipped. *)
Definition toggled (userId productId : Id) (st : Store) : Store :=
  if bool_decide ((userId, productId) ∈ links st)
  then {| data := data st; links := links st ∖ {[ (userId, productId) ]} |}
  else {| data := data st; links := links st ∪ {[ (userId, productId) ]} |}.

Section Handlers.

Variable bcrypt_compare : jsstring -> jsstring -> bool.

(** The [PostSavedProduct] struct of [./structs.js], which is not among
    the sources. *)
Variable PostSavedProduct : Id -> bool.

(** [GET /users/me/saved-products] *)
Definition GET_users_me_saved_products (cookie : option jsstring) (st : Store)
    : Rows (Id * Product) :=
  match auth bcrypt_compare cookie (data st) with
  | Denied r => NoRows r
  | ReqUser id _ =>
      match user_findUniqueOrThrow id (data st) with
      | Err e => NoRows (on_error e)
      | Ok _ => SendRows 200 (savedProducts id st)
      end
  end.

(** [POST /users/me/saved-products]: saves the product, or removes it
    from the saved ones when it is there. *)
Definition POST_users_me_saved_products (cookie : option jsstring) (productId : Id)
    (st : Store) : Store * Rows (Id * Product) :=
  match auth bcrypt_compare cookie (data st) with
  | Denied r => (st, NoRows r)
  | ReqUser userId _ =>
      match assert PostSavedProduct productId with
      | Err e => (st, NoRows (on_error e))
      | Ok _ =>
          let isProductSaved := 0 <? user_count_saved userId productId st in
          if isProductSaved then
            match user_disconnect userId productId st with
            | Err e => (st, NoRows (on_error e))
            | Ok (st', savedProducts) => (st', SendRows 200 savedProducts)
            end
          else
            match user_connect userId productId st with
            | Err e => (st, NoRows (on_error e))
            | Ok (st', savedProducts) => (st', SendRows 201 savedProducts)
            end
      end
  end.

End Handlers.

(** For the concrete cases: a struct that accepts every id, and the shop
    with nothing saved. *)
Definition any_product (productId : Id) : bool := true.

Definition nothing_saved (db : Db) : Store := {| data := db; links := ∅ |}.

End Saved.

(* ===================================================================== *)
(** ** Facts about strings and Buffers *)
(* ===================================================================== *)

Module JsFacts.
Import Js.

Local Open Scope N_scope.

Lemma forallb_below (P : N -> bool) (n : nat) :
  forallb P (below n) = true -> forall x, x < N.of_nat n -> P x = true.
Proof.
  intros H x Hx. rewrite forallb_forall in H. apply H.
  unfold below. apply in_map_iff. exists (N.to_nat x). split; [lia|].
  apply in_seq. lia.
Qed.

Lemma to_N_lt (b : Byte.byte) : Byte.to_N b < 256.
Proof. pose proof (Byte.to_N_bounded b). lia. Qed.

Lemma octet_to_N (b : Byte.byte) : octet (Byte.to_N b) = b.
Proof.
  unfold octet. rewrite N.mod_small by apply to_N_lt.
  by rewrite Byte.of_to_N.
Qed.

Lemma to_N_octet (n : N) : Byte.to_N (octet n) = n mod 256.
Proof.
  unfold octet. destruct (Byte.of_N (n mod 256)) as [b|] eqn:E.
  - by apply Byte.to_of_N.
  - apply Byte.of_N_None_iff in E.
    pose proof (N.mod_upper_bound n 256). lia.
Qed.

(** Every letter of the alphabet decodes to its index and is not '='. *)
Lemma unbase64_b64char (i : N) :
  i < 64 -> unbase64 (b64char i) = Some i /\ b64char i <> pad.
Proof.
  intros Hi.
  pose proof (forallb_below
    (fun i => match unbase64 (b64char i) with
              | Some j => (j =? i) && negb (b64char i =? pad)
              | None => false
              end) 64 eq_refl i Hi) as H.
  cbv beta in H. destruct (unbase64 (b64char i)) as [j|]; [|done].
  apply andb_prop in H as [H1 H2].
  apply N.eqb_eq in H1. apply negb_true_iff, N.eqb_neq in H2. by subst.
Qed.

Lemma octets_check (P : N -> bool) :
  forallb P (below 256) = true -> forall x : Byte.byte, P (Byte.to_N x) = true.
Proof. intros H x. apply (forallb_below P 256 H), to_N_lt. Qed.

Lemma octets_check2 (P : N -> N -> bool) :
  forallb (fun a => forallb (P a) (below 256)) (below 256) = true ->
  forall x y : Byte.byte, P (Byte.to_N x) (Byte.to_N y) = true.
Proof.
  intros H x y.
  apply (forallb_below (P (Byte.to_N x)) 256); [|apply to_N_lt].
  apply (forallb_below (fun a => forallb (P a) (below 256)) 256 H), to_N_lt.
Qed.

Ltac by_octets P :=
  apply N.eqb_eq; first
    [ apply (octets_check P); by vm_compute
    | apply (octets_check2 P); by vm_compute ].

Ltac octets_bound P :=
  apply N.ltb_lt; first
    [ apply (octets_check P); by vm_compute
    | apply (octets_check2 P); by vm_compute ].

Lemma sextet1_lt x : sextet1 (Byte.to_N x) < 64.
Proof. octets_bound (fun a => sextet1 a <? 64). Qed.

Lemma sextet2_lt x y : sextet2 (Byte.to_N x) (Byte.to_N y) < 64.
Proof. octets_bound (fun a b => sextet2 a b <? 64). Qed.

Lemma sextet3_lt x y : sextet3 (Byte.to_N x) (Byte.to_N y) < 64.
Proof. octets_bound (fun a b => sextet3 a b <? 64). Qed.

Lemma sextet4_lt x : sextet4 (Byte.to_N x) < 64.
Proof. octets_bound (fun a => sextet4 a <? 64). Qed.

Lemma sextet2_0_lt x : sextet2 (Byte.to_N x) 0 < 64.
Proof. octets_bound (fun a => sextet2 a 0 <? 64). Qed.

Lemma sextet3_0_lt x : sextet3 (Byte.to_N x) 0 < 64.
Proof. octets_bound (fun a => sextet3 a 0 <? 64). Qed.

(** Each octet is recovered from the two sextets that carry its bits. *)
Lemma octet1_sextets x y :
  octet1 (sextet1 (Byte.to_N x)) (sextet2 (Byte.to_N x) (Byte.to_N y)) = x.
Proof.
  rewrite <- (octet_to_N x) at 3. unfold octet1. f_equal.
  by_octets (fun a b => N.lor (N.shiftl (sextet1 a) 2) (N.shiftr (sextet2 a b) 4) =? a).
Qed.

Lemma octet1_sextets_0 x :
  octet1 (sextet1 (Byte.to_N x)) (sextet2 (Byte.to_N x) 0) = x.
Proof.
  rewrite <- (octet_to_N x) at 3. unfold octet1. f_equal.
  by_octets (fun a => N.lor (N.shiftl (sextet1 a) 2) (N.shiftr (sextet2 a 0) 4) =? a).
Qed.

Lemma land_sextet2 x y :
  N.land (sextet2 (Byte.to_N x) (Byte.to_N y)) 15 = N.shiftr (Byte.to_N y) 4.
Proof. by_octets (fun a b => N.land (sextet2 a b) 15 =? N.shiftr b 4). Qed.

Lemma land_sextet3 y z :
  N.land (sextet3 (Byte.to_N y) (Byte.to_N z)) 3 = N.shiftr (Byte.to_N z) 6.
Proof. by_octets (fun b c => N.land (sextet3 b c) 3 =? N.shiftr c 6). Qed.

Lemma octet2_sextets x y z :
  octet2 (sextet2 (Byte.to_N x) (Byte.to_N y))
         (sextet3 (Byte.to_N y) (Byte.to_N z)) = y.
Proof.
  rewrite <- (octet_to_N y) at 3. unfold octet2. rewrite land_sextet2. f_equal.
  by_octets (fun b c => N.lor (N.shiftl (N.shiftr b 4) 4) (N.shiftr (sextet3 b c) 2) =? b).
Qed.

Lemma octet2_sextets_0 x y :
  octet2 (sextet2 (Byte.to_N x) (Byte.to_N y)) (sextet3 (Byte.to_N y) 0) = y.
Proof.
  rewrite <- (octet_to_N y) at 3. unfold octet2. rewrite land_sextet2. f_equal.
  by_octets (fun b => N.lor (N.shiftl (N.shiftr b 4) 4) (N.shiftr (sextet3 b 0) 2) =? b).
Qed.

Lemma octet3_sextets y z :
  octet3 (sextet3 (Byte.to_N y) (Byte.to_N z)) (sextet4 (Byte.to_N z)) = z.
Proof.
  rewrite <- (octet_to_N z) at 3. unfold octet3. rewrite land_sextet3. f_equal.
  by_octets (fun c => N.lor (N.shiftl (N.shiftr c 6) 6) (sextet4 c) =? c).
Qed.

Lemma base64_sextets_letter (v : N) (s : jsstring) :
  v < 64 -> base64_sextets (b64char v :: s) = v :: base64_sextets s.
Proof.
  intros Hv. destruct (unbase64_b64char v Hv) as [E _].
  cbn [base64_sextets]. by rewrite E.
Qed.

Lemma base64_sextets_pad (s : jsstring) : base64_sextets (pad :: s) = [].
Proof. reflexivity. Qed.

Lemma list_ind3 {A} (P : list A -> Prop) :
  P [] -> (forall x, P [x]) -> (forall x y, P [x; y]) ->
  (forall x y z l, P l -> P (x :: y :: z :: l)) ->
  forall l, P l.
Proof.
  intros H0 H1 H2 H3 l.
  assert (P l /\ (forall x, P (x :: l)) /\ (forall x y, P (x :: y :: l))) as [? _].
  { induction l as [|a l (IH0 & IH1 & IH2)]; [by auto|].
    split; [apply IH1|]. split; [intros x; apply IH2|]. intros x y. by apply H3. }
  done.
Qed.

(** Decoding the base64 text of a buffer gives the buffer back. *)
Lemma Buffer_from_base64_toString (buf : buffer) :
  Buffer_from_base64 (toString_base64 buf) = buf.
Proof.
  unfold Buffer_from_base64.
  induction buf as [|x|x y|x y z rest IH] using list_ind3.
  - reflexivity.
  - cbn [toString_base64].
    rewrite !base64_sextets_letter, base64_sextets_pad
      by auto using sextet1_lt, sextet2_0_lt.
    cbn [base64_octets]. by rewrite octet1_sextets_0.
  - cbn [toString_base64].
    rewrite !base64_sextets_letter, base64_sextets_pad
      by auto using sextet1_lt, sextet2_lt, sextet3_0_lt.
    cbn [base64_octets]. by rewrite octet1_sextets, octet2_sextets_0.
  - cbn [toString_base64].
    rewrite !base64_sextets_letter
      by auto using sextet1_lt, sextet2_lt, sextet3_lt, sextet4_lt.
    cbn [base64_octets]. fold base64_octets.
    by rewrite octet1_sextets, octet2_sextets, octet3_sextets, IH.
Qed.

(** *** ASCII strings survive [Buffer.from] and [toString("ascii")] *)

Lemma utf8_ascii (c : N) : c < 128 -> utf8_of_code_point c = [octet c].
Proof. intros H. unfold utf8_of_code_point. by apply N.ltb_lt in H as ->. Qed.

Lemma Buffer_from_ascii (s : jsstring) : is_ascii s -> Buffer_from s = map octet s.
Proof.
  induction 1 as [|c s Hc Hs IH]; [done|].
  cbn [Buffer_from map].
  replace (is_high_surrogate c) with false
    by (unfold is_high_surrogate; symmetry; apply andb_false_intro1, N.leb_gt; lia).
  replace (is_low_surrogate c) with false
    by (unfold is_low_surrogate; symmetry; apply andb_false_intro1, N.leb_gt; lia).
  by rewrite utf8_ascii, IH.
Qed.

(** A character that is not a surrogate is encoded on its own. *)
Lemma Buffer_from_app (s t : jsstring) (c : N) :
  is_high_surrogate c = false -> is_low_surrogate c = false ->
  Buffer_from (s ++ c :: t) = Buffer_from s ++ utf8_of_code_point c ++ Buffer_from t.
Proof.
  intros Hh Hl.
  assert (Buffer_from (c :: t) = utf8_of_code_point c ++ Buffer_from t) as Hc
    by (cbn [Buffer_from]; by rewrite Hh, Hl).
  assert (forall n (s : jsstring), (length s <= n)%nat ->
            Buffer_from (s ++ c :: t) = Buffer_from s ++ Buffer_from (c :: t)) as H.
  { induction n as [|n IH]; intros s' Hn.
    - destruct s'; [done|cbn in Hn; lia].
    - destruct s' as [|a [|d s']]; [done| |].
      + change ([a] ++ c :: t) with (a :: c :: t).
        cbn [Buffer_from]. rewrite Hl, Hh.
        destruct (is_high_surrogate a); [done|].
        destruct (is_low_surrogate a); by rewrite <- app_assoc.
      + change ((a :: d :: s') ++ c :: t) with (a :: d :: (s' ++ c :: t)).
        cbn in Hn.
        assert (Buffer_from (s' ++ c :: t) = Buffer_from s' ++ Buffer_from (c :: t)) as E1
          by (apply IH; lia).
        assert (Buffer_from (d :: s' ++ c :: t)
                = Buffer_from (d :: s') ++ Buffer_from (c :: t)) as E2
          by (apply (IH (d :: s')); cbn; lia).
        cbn [Buffer_from] in E2 |- *.
        destruct (is_high_surrogate a).
        * destruct (is_low_surrogate d); [by rewrite E1, app_assoc|].
          by rewrite E2, app_assoc.
        * destruct (is_low_surrogate a); by rewrite E2, app_assoc. }
  rewrite <- Hc. by apply (H (length s)).
Qed.

Lemma toString_ascii_octets (s : jsstring) :
  is_ascii s -> toString_ascii (map octet s) = s.
Proof.
  unfold toString_ascii. induction 1 as [|c s Hc Hs IH]; [done|].
  cbn [map]. rewrite IH. f_equal.
  rewrite to_N_octet, N.mod_small by lia.
  apply N.eqb_eq. by apply (forallb_below (fun c => N.land c 127 =? c) 128).
Qed.

Lemma toString_ascii_Buffer_from (s : jsstring) :
  is_ascii s -> toString_ascii (Buffer_from s) = s.
Proof. intros H. by rewrite Buffer_from_ascii, toString_ascii_octets. Qed.

Lemma is_ascii_app (s t : jsstring) : is_ascii s -> is_ascii t -> is_ascii (s ++ t).
Proof. apply Forall_app_2. Qed.

(** *** [split] *)

Lemma split_no_sep sep (s : jsstring) : sep ∉ s -> split sep s = [s].
Proof.
  induction s as [|c s IH]; [done|]. intros Hs.
  apply not_elem_of_cons in Hs as [Hc Hs]. cbn [split].
  replace (c =? sep) with false by (symmetry; apply N.eqb_neq; congruence).
  by rewrite IH.
Qed.

Lemma split_app sep (s t : jsstring) :
  sep ∉ s -> split sep (s ++ sep :: t) = s :: split sep t.
Proof.
  induction s as [|c s IH]; intros Hs.
  - cbn [app split]. by rewrite N.eqb_refl.
  - apply not_elem_of_cons in Hs as [Hc Hs]. cbn [app split].
    replace (c =? sep) with false by (symmetry; apply N.eqb_neq; congruence).
    by rewrite IH.
Qed.

End JsFacts.

(* ===================================================================== *)
(** ** What [POST /orders] does to the datastore *)
(* ===================================================================== *)

Module OrderFacts.
Import Js Prisma App Outcome Sample.

Local Open Scope Z_scope.

Lemma every_Ok {A} (f : A -> Result bool) (g : A -> bool) (l : list A) :
  (forall x, x ∈ l -> f x = Ok (g x)) -> every f l = Ok (forallb g l).
Proof.
  induction l as [|x l IH]; intros H; [done|].
  cbn [every forallb]. rewrite (H x) by left.
  destruct (g x); [|done]. apply IH. intros y Hy. apply H. by right.
Qed.

Lemma mapR_Ok {A B} (f : A -> Result B) (g : A -> B) (l : list A) :
  (forall x, x ∈ l -> f x = Ok (g x)) -> mapR f l = Ok (map g l).
Proof.
  induction l as [|x l IH]; intros H; [done|].
  cbn [mapR map]. rewrite (H x) by left. cbn.
  rewrite IH; [done|]. intros y Hy. apply H. by right.
Qed.

Lemma getQuantity_Ok (orderItems : list OrderItemInput) (id : Id) :
  id ∈ map productId orderItems ->
  getQuantity orderItems id = Ok (quantity_of orderItems id).
Proof.
  intros Hin. unfold getQuantity, quantity_of.
  destruct (List.find _ orderItems) as [i|] eqn:E; [done|].
  apply list_elem_of_fmap in Hin as (i & -> & Hi).
  apply list_elem_of_In in Hi.
  pose proof (find_none _ _ E i Hi) as Hn. cbn in Hn.
  by rewrite bool_decide_eq_false in Hn.
Qed.

Lemma quantity_of_first (i : OrderItemInput) (orderItems : list OrderItemInput) :
  quantity_of (i :: orderItems) (productId i) = quantity i.
Proof. unfold quantity_of. cbn [List.find]. by rewrite bool_decide_eq_true_2. Qed.

Lemma quantity_of_NoDup (orderItems : list OrderItemInput) (i : OrderItemInput) :
  NoDup (map productId orderItems) -> i ∈ orderItems ->
  quantity_of orderItems (productId i) = quantity i.
Proof.
  induction orderItems as [|j l IH]; intros Hnd Hi; [by apply elem_of_nil in Hi|].
  cbn [map] in Hnd. apply NoDup_cons in Hnd as [Hj Hnd].
  apply elem_of_cons in Hi as [->|Hi]; [apply quantity_of_first|].
  unfold quantity_of. cbn [List.find].
  rewrite bool_decide_eq_false_2.
  - by apply IH.
  - intros E. apply Hj. rewrite E. apply list_elem_of_fmap. by exists i.
Qed.

Lemma prepare_eq (orderItems : list OrderItemInput) (db : Db) :
  prepare orderItems db =
    if negb (CreateOrder orderItems) then Err StructError
    else if negb (sufficient orderItems db) then Err (JsError "Insufficient Stock")
    else Ok (updates orderItems).
Proof.
  unfold prepare, assert. destruct (CreateOrder orderItems); [|done]. cbn.
  unfold isSufficientStock.
  rewrite (every_Ok _
    (fun row => bool_decide (quantity_of orderItems row.1 <= stock row.2))).
  - cbn. fold (sufficient orderItems db).
    destruct (sufficient orderItems db); [|done]. cbn.
    unfold queries, updates. apply mapR_Ok.
    intros id Hid. by rewrite getQuantity_Ok.
  - intros [id p] Hrow. apply list_elem_of_filter in Hrow as [Hid _].
    by rewrite getQuantity_Ok.
Qed.

Lemma sufficient_true (orderItems : list OrderItemInput) (db : Db) :
  sufficient orderItems db = true <->
  forall id p, id ∈ map productId orderItems -> products db !! id = Some p ->
               quantity_of orderItems id <= stock p.
Proof.
  unfold sufficient, product_findMany_in. rewrite forallb_forall. split.
  - intros H id p Hid Hp.
    specialize (H (id, p)). rewrite bool_decide_eq_true in H. apply H.
    apply list_elem_of_In, list_elem_of_filter. split; [done|].
    by apply elem_of_map_to_list.
  - intros H [id p] Hrow. apply list_elem_of_In, list_elem_of_filter in Hrow as [Hid Hrow].
    apply elem_of_map_to_list in Hrow. rewrite bool_decide_eq_true. by apply H.
Qed.

Lemma decrement_0 (p : Product) : decrement 0 p = p.
Proof. destruct p as [s c]. unfold decrement. cbn. f_equal. lia. Qed.

Lemma decrement_decrement (a b : Z) (p : Product) :
  decrement a (decrement b p) = decrement (b + a) p.
Proof. unfold decrement. cbn. f_equal. lia. Qed.

Lemma lines_of_cons (k id : Id) (ids : list Id) :
  lines_of k (id :: ids) = if decide (id = k) then S (lines_of k ids) else lines_of k ids.
Proof. unfold lines_of. rewrite filter_cons. by destruct (decide (id = k)). Qed.

(** After the updates, the stock of [k] has gone down by the quantity
    [q k] once for every line item that names [k]. *)
Lemma lookup_decrement_all (q : Id -> Z) (ids : list Id) (m : gmap Id Product) (k : Id) :
  decrement_all q ids m !! k = decrement (Z.of_nat (lines_of k ids) * q k) <$> m !! k.
Proof.
  revert m. induction ids as [|id ids IH]; intros m.
  - cbn. destruct (m !! k) as [p|]; [|done]. cbn. by rewrite decrement_0.
  - unfold decrement_all in *. cbn [foldl]. rewrite IH, lines_of_cons, lookup_alter.
    destruct (decide (id = k)) as [->|Hne].
    + destruct (m !! k) as [p|]; [|done]. cbn.
      rewrite decrement_decrement. do 2 f_equal. lia.
    + done.
Qed.

Lemma dom_decrement_all (q : Id -> Z) (ids : list Id) (m : gmap Id Product) (k : Id) :
  is_Some (decrement_all q ids m !! k) <-> is_Some (m !! k).
Proof. rewrite lookup_decrement_all. apply fmap_is_Some. Qed.

Lemma set_products_set_products f g db :
  set_products f (set_products g db) = set_products (fun m => f (g m)) db.
Proof. done. Qed.

(** When every product exists, the update statements succeed if every
    decrement fits the column, and fail on the first one that does not. *)
Lemma run_updates (q : Id -> Z) (ids : list Id) (db : Db) :
  (forall id, id ∈ ids -> is_Some (products db !! id)) ->
  if decrements_fit q ids (products db)
  then exists vs,
         run_stmts (map (fun id => product_update_decrement id (q id)) ids) db
         = Ok (set_products (decrement_all q ids) db, vs)
  else run_stmts (map (fun id => product_update_decrement id (q id)) ids) db
       = Err P2020.
Proof.
  revert db. induction ids as [|id ids IH]; intros db H.
  - exists []. by destruct db.
  - destruct (H id) as [p Hp]; [by left|].
    cbn [map run_stmts decrements_fit]. unfold product_update_decrement at 1 3.
    rewrite Hp.
    destruct (int4 (stock p - q id)); [|done]. cbn [andb].
    specialize (IH (set_products <[id:=decrement (q id) p]> db)).
    cbn [set_products products] in IH.
    destruct (decrements_fit q ids (<[id:=decrement (q id) p]> (products db))).
    + destruct IH as [vs ->].
      * intros k Hk. rewrite lookup_insert.
        case_decide; [by eexists|]. apply H. by right.
      * eexists. do 2 f_equal. unfold set_products. cbn. f_equal.
        unfold decrement_all. cbn [foldl]. f_equal.
        apply map_eq. intros k. rewrite lookup_insert, lookup_alter.
        case_decide; subst; by rewrite ?Hp.
    + rewrite IH; [done|].
      intros k Hk. rewrite lookup_insert.
      case_decide; [by eexists|]. apply H. by right.
Qed.

(** The first update of a missing product fails. *)
Lemma all_products_exist_true (orderItems : list OrderItemInput) (db : Db) :
  all_products_exist orderItems db = true <->
  forall id, id ∈ map productId orderItems -> is_Some (products db !! id).
Proof.
  unfold all_products_exist. rewrite forallb_forall. split.
  - intros H id Hid. apply list_elem_of_fmap in Hid as (i & -> & Hi).
    apply list_elem_of_In in Hi. specialize (H i Hi).
    by rewrite bool_decide_eq_true in H.
  - intros H i Hi. rewrite bool_decide_eq_true. apply H.
    apply list_elem_of_fmap. exists i. by rewrite list_elem_of_In.
Qed.

(** The [$transaction] of the handler, case by case. *)
Lemma commit_updates_eq (newId userId : Id) (orderItems : list OrderItemInput) (db : Db) :
  commit newId userId orderItems (updates orderItems) db =
    if bool_decide (is_Some (orders db !! newId)) then (db, Next P2002)
    else if negb (bool_decide (is_Some (users db !! userId))) then (db, Next P2003)
    else if negb (all_products_exist orderItems db) then (db, Next P2003)
    else if negb (stock_fits orderItems db) then (db, Next P2020)
    else (placed newId userId orderItems db, created newId userId orderItems).
Proof.
  unfold commit, transaction. cbn [run_stmts]. unfold order_create.
  fold (all_products_exist orderItems db).
  destruct (bool_decide (is_Some (orders db !! newId))); [done|].
  destruct (bool_decide (is_Some (users db !! userId))); [|done].
  destruct (all_products_exist orderItems db) eqn:Hall; [|done].
  cbn [negb]. unfold updates, stock_fits.
  pose proof (run_updates (quantity_of orderItems) (map productId orderItems)
    (set_orderItems (fun rows => rows ++ rows_of newId orderItems)
       (set_orders <[newId := {| userId := userId |}]> db))) as Hrun.
  cbn [set_orderItems set_orders products] in Hrun.
  destruct (decrements_fit _ _ (products db)).
  - destruct Hrun as [vs ->]; [|done].
    intros id Hid.
    exact (proj1 (all_products_exist_true orderItems db) Hall id Hid).
  - cbn [negb]. rewrite Hrun; [done|].
    intros id Hid.
    exact (proj1 (all_products_exist_true orderItems db) Hall id Hid).
Qed.

(** [POST /orders], case by case. *)
Lemma POST_orders_eq (newId userId : Id) (orderItems : list OrderItemInput) (db : Db) :
  POST_orders newId userId orderItems db =
    if negb (CreateOrder orderItems) then (db, Send 400 (ErrorMessage StructError))
    else if negb (sufficient orderItems db) then (db, Next (JsError "Insufficient Stock"))
    else if bool_decide (is_Some (orders db !! newId)) then (db, Next P2002)
    else if negb (bool_decide (is_Some (users db !! userId))) then (db, Next P2003)
    else if negb (all_products_exist orderItems db) then (db, Next P2003)
    else if negb (stock_fits orderItems db) then (db, Next P2020)
    else (placed newId userId orderItems db, created newId userId orderItems).
Proof.
  unfold POST_orders. rewrite prepare_eq.
  destruct (CreateOrder orderItems); [|done].
  destruct (sufficient orderItems db); [|done].
  apply commit_updates_eq.
Qed.

(** *** Referential integrity and stock *)

Lemma lines_of_notin (k : Id) (ids : list Id) : k ∉ ids -> lines_of k ids = 0%nat.
Proof.
  induction ids as [|id ids IH]; [done|]. intros H.
  apply not_elem_of_cons in H as [Hne H]. rewrite lines_of_cons.
  rewrite decide_False by congruence. by apply IH.
Qed.

Lemma lines_of_NoDup (k : Id) (ids : list Id) :
  NoDup ids -> k ∈ ids -> lines_of k ids = 1%nat.
Proof.
  induction 1 as [|id ids Hid Hnd IH]; intros Hk; [by apply elem_of_nil in Hk|].
  rewrite lines_of_cons. apply elem_of_cons in Hk as [->|Hk].
  - rewrite decide_True by done. by rewrite lines_of_notin.
  - rewrite decide_False; [by apply IH|]. intros ->. by apply Hid.
Qed.

Lemma fold_add_line_rows (newId : Id) (orderItems : list OrderItemInput) (t : float) :
  fold_left add_line (rows_of newId orderItems) t
  = fold_left (fun total i => (total + unitPrice i * Number_of_Z (quantity i))%float)
              orderItems t.
Proof.
  revert t. induction orderItems as [|i l IH]; intros t; [done|].
  cbn [rows_of map fold_left]. apply IH.
Qed.

Lemma filter_none {A} (P : A -> Prop) `{!forall x, Decision (P x)} (l : list A) :
  (forall x, x ∈ l -> ~ P x) -> filter P l = [].
Proof.
  induction l as [|x l IH]; intros Hl; [done|].
  rewrite filter_cons_False by (apply Hl; left).
  apply IH. intros y Hy. apply Hl. by right.
Qed.

Lemma orderItems_of_placed (newId userId : Id) (orderItems : list OrderItemInput) (db : Db) :
  integrity db -> orders db !! newId = None ->
  orderItems_of newId (placed newId userId orderItems db) = rows_of newId orderItems.
Proof.
  intros Hdb Hnew. unfold orderItems_of, placed. cbn [Prisma.orderItems].
  rewrite filter_app.
  replace (filter _ (Prisma.orderItems db)) with (@nil OrderItem).
  - cbn [app]. unfold rows_of. induction orderItems as [|i l IH]; [done|].
    cbn [map]. rewrite filter_cons_True by done. by rewrite IH.
  - symmetry. apply filter_none. intros row Hrow E.
    destruct (item_order db Hdb row Hrow) as [o Ho]. congruence.
Qed.

(** Reading a placed order back: its line items and their total. *)
Lemma GET_placed (newId userId : Id) (orderItems : list OrderItemInput) (db : Db) :
  integrity db -> orders db !! newId = None ->
  GET_orders_id newId (placed newId userId orderItems db)
  = (placed newId userId orderItems db,
     Send 200 (Json (VOrder newId {| userId := userId |} (rows_of newId orderItems)
                            (Some (sum_lines orderItems))))).
Proof.
  intros Hdb Hnew. unfold GET_orders_id, order_findUniqueOrThrow.
  rewrite orderItems_of_placed by done.
  cbn [placed orders]. rewrite lookup_insert_eq.
  by rewrite fold_add_line_rows.
Qed.

(** What is left of the outcome of [POST /orders] when the datastore changed. *)
Lemma POST_orders_inv (newId userId : Id) (orderItems : list OrderItemInput) (db : Db) :
  (POST_orders newId userId orderItems db).1 = db
  /\ (exists e, (POST_orders newId userId orderItems db).2 = Next e
      \/ (POST_orders newId userId orderItems db).2 = Send 400 (ErrorMessage e))
  \/ POST_orders newId userId orderItems db
     = (placed newId userId orderItems db, created newId userId orderItems)
     /\ CreateOrder orderItems = true
     /\ sufficient orderItems db = true
     /\ orders db !! newId = None
     /\ is_Some (users db !! userId)
     /\ all_products_exist orderItems db = true
     /\ stock_fits orderItems db = true.
Proof.
  rewrite POST_orders_eq.
  destruct (CreateOrder orderItems); [|left; eauto].
  destruct (sufficient orderItems db); [|left; eauto].
  destruct (bool_decide (is_Some (orders db !! newId))) eqn:E1; [left; eauto|].
  destruct (bool_decide (is_Some (users db !! userId))) eqn:E2; [|left; eauto].
  destruct (all_products_exist orderItems db); [|left; eauto].
  destruct (stock_fits orderItems db); [|left; eauto].
  right. cbn. repeat split; try done.
  - apply bool_decide_eq_false in E1. by apply eq_None_not_Some.
  - by apply bool_decide_eq_true in E2.
Qed.

(** *** Placements with pairwise different products *)

Lemma sufficient_line (orderItems : list OrderItemInput) (db : Db) i p :
  NoDup (map productId orderItems) -> sufficient orderItems db = true ->
  i ∈ orderItems -> products db !! productId i = Some p -> quantity i <= stock p.
Proof.
  intros Hnd Hs Hi Hp. rewrite <- (quantity_of_NoDup orderItems i) by done.
  eapply sufficient_true; [done| |done].
  apply list_elem_of_fmap. by exists i.
Qed.

(** A line item that asks for more than the stock of its product makes
    the stock check fail, when no two line items name the same product. *)
Lemma POST_orders_insufficient (newId userId : Id) (orderItems : list OrderItemInput)
    (db : Db) i p :
  CreateOrder orderItems = true -> NoDup (map productId orderItems) ->
  i ∈ orderItems -> products db !! productId i = Some p -> stock p < quantity i ->
  POST_orders newId userId orderItems db = (db, Next (JsError "Insufficient Stock")).
Proof.
  intros Hc Hnd Hi Hp Hlt. rewrite POST_orders_eq, Hc. cbn [negb].
  destruct (sufficient orderItems db) eqn:Hs; [|done].
  pose proof (sufficient_line orderItems db i p Hnd Hs Hi Hp). lia.
Qed.

Lemma sufficient_intro (orderItems : list OrderItemInput) (db : Db) :
  NoDup (map productId orderItems) ->
  (forall i, i ∈ orderItems ->
     exists p, products db !! productId i = Some p /\ quantity i <= stock p) ->
  sufficient orderItems db = true /\ all_products_exist orderItems db = true.
Proof.
  intros Hnd H. split.
  - apply sufficient_true. intros id p Hid Hp.
    apply list_elem_of_fmap in Hid as (i & -> & Hi).
    destruct (H i Hi) as (p' & Hp' & Hq).
    rewrite quantity_of_NoDup by done. congruence.
  - apply all_products_exist_true. intros id Hid.
    apply list_elem_of_fmap in Hid as (i & -> & Hi).
    destruct (H i Hi) as (p' & Hp' & _). by eexists.
Qed.

Lemma placed_stock_distinct (newId userId : Id) (orderItems : list OrderItemInput)
    (db : Db) i p :
  NoDup (map productId orderItems) -> i ∈ orderItems ->
  products db !! productId i = Some p ->
  products (placed newId userId orderItems db) !! productId i
  = Some (decrement (quantity i) p).
Proof.
  intros Hnd Hi Hp. cbn [placed products].
  rewrite lookup_decrement_all, Hp, lines_of_NoDup, quantity_of_NoDup; try done.
  - cbn. do 2 f_equal. lia.
  - apply list_elem_of_fmap. by exists i.
Qed.

Lemma placed_stock_other (newId userId : Id) (orderItems : list OrderItemInput)
    (db : Db) k :
  k ∉ map productId orderItems ->
  products (placed newId userId orderItems db) !! k = products db !! k.
Proof.
  intros Hk. cbn [placed products]. rewrite lookup_decrement_all, lines_of_notin by done.
  destruct (products db !! k) as [p|]; [|done]. cbn. by rewrite decrement_0.
Qed.

(** After a placement the stock of a product is down by the quantity of
    its first line item, once per line item that names it. *)
Lemma placed_stock (newId userId : Id) (orderItems : list OrderItemInput) (db : Db) k :
  stock_of k (placed newId userId orderItems db)
  = (fun s => s - Z.of_nat (lines_of k (map productId orderItems))
                  * quantity_of orderItems k) <$> stock_of k db.
Proof.
  unfold stock_of. cbn [placed products]. rewrite lookup_decrement_all.
  by destruct (products db !! k).
Qed.

Lemma CreateOrder_positive (orderItems : list OrderItemInput) i :
  CreateOrder orderItems = true -> i ∈ orderItems -> 0 < quantity i.
Proof.
  intros Hc Hi. destruct orderItems as [|j l]; [by apply elem_of_nil in Hi|].
  unfold CreateOrder in Hc. rewrite forallb_forall in Hc.
  apply list_elem_of_In in Hi. specialize (Hc i Hi). lia.
Qed.

(** Updates of pairwise different products fit when each of them does. *)
Lemma decrements_fit_NoDup (q : Id -> Z) (ids : list Id) (m : gmap Id Product) :
  NoDup ids ->
  (forall id p, id ∈ ids -> m !! id = Some p -> int4 (stock p - q id) = true) ->
  decrements_fit q ids m = true.
Proof.
  intros Hnd. revert m. induction Hnd as [|id ids Hid Hnd IH]; intros m H; [done|].
  cbn [decrements_fit]. destruct (m !! id) as [p|] eqn:Hp.
  - rewrite (H id p) by (done || left). cbn [andb].
    apply IH. intros k pk Hk Hpk. rewrite lookup_insert_ne in Hpk.
    + apply H; [by right|done].
    + intros ->. by apply Hid.
  - apply IH. intros k pk Hk Hpk. apply H; [by right|done].
Qed.

Lemma lines_of_elem (k : Id) (ids : list Id) : k ∈ ids -> (1 <= lines_of k ids)%nat.
Proof.
  induction ids as [|id ids IH]; intros Hk; [by apply elem_of_nil in Hk|].
  rewrite lines_of_cons. destruct (decide (id = k)) as [->|Hne]; [lia|].
  apply elem_of_cons in Hk as [->|Hk]; [done|by apply IH].
Qed.

(** With quantities that are not negative the stock of a product only goes
    down, so the updates fit exactly when the last stock of every product
    does. *)
Lemma decrements_fit_true (q : Id -> Z) (ids : list Id) (m : gmap Id Product) :
  (forall id, id ∈ ids -> 0 <= q id) ->
  (forall k p, k ∈ ids -> m !! k = Some p -> stock p - q k <= 2147483647) ->
  decrements_fit q ids m = true
  <-> forall k p, k ∈ ids -> m !! k = Some p ->
        -2147483648 <= stock p - Z.of_nat (lines_of k ids) * q k.
Proof.
  revert m. induction ids as [|id ids IH]; intros m Hq Hmax.
  - split; [|done]. intros _ k p Hk. by apply elem_of_nil in Hk.
  - assert (forall k, k ∈ ids -> 0 <= q k) as Hq' by (intros k Hk; apply Hq; by right).
    assert (0 <= q id) as Hqid by (apply Hq; left).
    cbn [decrements_fit]. destruct (m !! id) as [p|] eqn:Hp.
    + assert (stock p - q id <= 2147483647) as Hup by (apply (Hmax id p); [left|done]).
      rewrite andb_true_iff, (IH (<[id:=decrement (q id) p]> m) Hq'); cycle 1.
      { intros k pk Hk Hpk. destruct (decide (k = id)) as [->|Hne].
        - rewrite lookup_insert_eq in Hpk. injection Hpk as <-. cbn. lia.
        - rewrite lookup_insert_ne in Hpk by done. apply Hmax; [by right|done]. }
      split.
      * intros [Hfit H] k pk Hk Hpk. rewrite lines_of_cons.
        destruct (decide (id = k)) as [<-|Hne].
        -- replace pk with p in * by congruence.
           rewrite Nat2Z.inj_succ, Z.mul_succ_l.
           destruct (decide (id ∈ ids)) as [Hin|Hnin].
           ++ specialize (H id (decrement (q id) p) Hin).
              rewrite lookup_insert_eq in H. specialize (H eq_refl). cbn in H. lia.
           ++ rewrite lines_of_notin by done. unfold int4 in Hfit. lia.
        -- apply elem_of_cons in Hk as [->|Hk]; [done|].
           apply H; [done|]. by rewrite lookup_insert_ne.
      * intros H. split.
        -- pose proof (H id p (list_elem_of_here _ _) Hp) as Hlow.
           rewrite lines_of_cons, decide_True in Hlow by done.
           rewrite Nat2Z.inj_succ, Z.mul_succ_l in Hlow.
           assert (0 <= Z.of_nat (lines_of id ids) * q id) by (apply Z.mul_nonneg_nonneg; lia).
           unfold int4. lia.
        -- intros k pk Hk Hpk. destruct (decide (k = id)) as [->|Hne].
           ++ rewrite lookup_insert_eq in Hpk. injection Hpk as <-. cbn.
              pose proof (H id p (list_elem_of_here _ _) Hp) as Hlow.
              rewrite lines_of_cons, decide_True in Hlow by done.
              rewrite Nat2Z.inj_succ, Z.mul_succ_l in Hlow. lia.
           ++ rewrite lookup_insert_ne in Hpk by done.
              pose proof (H k pk (list_elem_of_further _ _ _ Hk) Hpk) as Hlow.
              rewrite lines_of_cons, decide_False in Hlow by done. done.
    + rewrite (IH m Hq'); cycle 1.
      { intros k pk Hk Hpk. apply Hmax; [by right|done]. }
      split.
      * intros H k pk Hk Hpk. rewrite lines_of_cons.
        destruct (decide (id = k)) as [<-|Hne]; [congruence|].
        apply elem_of_cons in Hk as [->|Hk]; [done|]. by apply H.
      * intros H k pk Hk Hpk.
        pose proof (H k pk (list_elem_of_further _ _ _ Hk) Hpk) as Hlow.
        rewrite lines_of_cons in Hlow.
        destruct (decide (id = k)) as [<-|Hne]; [congruence|done].
Qed.


(** A valid placement with pairwise different products, on stocks within
    the range of their column: it succeeds, the order holds the requested
    line items, every product named loses the quantity of its line item,
    and reading the order back gives the total. *)
Lemma POST_orders_valid_distinct (newId userId : Id) (orderItems : list OrderItemInput)
    (db : Db) :
  integrity db -> CreateOrder orderItems = true ->
  NoDup (map productId orderItems) ->
  orders db !! newId = None -> is_Some (users db !! userId) ->
  (forall i, i ∈ orderItems ->
     exists p, products db !! productId i = Some p
               /\ quantity i <= stock p <= 2147483647) ->
  let db' := (POST_orders newId userId orderItems db).1 in
  (POST_orders newId userId orderItems db).2 = created newId userId orderItems
  /\ (forall i p, i ∈ orderItems -> products db !! productId i = Some p ->
        products db' !! productId i = Some (decrement (quantity i) p))
  /\ (forall k, k ∉ map productId orderItems -> products db' !! k = products db !! k)
  /\ GET_orders_id newId db'
     = (db', Send 200 (Json (VOrder newId {| userId := userId |}
                               (rows_of newId orderItems)
                               (Some (sum_lines orderItems))))).
Proof.
  intros Hdb Hc Hnd Hnew Hu Hitems.
  destruct (sufficient_intro orderItems db Hnd) as [Hs Hall].
  { intros i Hi. destruct (Hitems i Hi) as (p & Hp & Hq & _). eauto. }
  assert (stock_fits orderItems db = true) as Hfit.
  { apply decrements_fit_NoDup; [done|]. intros id p Hid Hp.
    apply list_elem_of_fmap in Hid as (i & -> & Hi).
    destruct (Hitems i Hi) as (p' & Hp' & Hq & Hmax).
    rewrite quantity_of_NoDup by done.
    pose proof (CreateOrder_positive orderItems i Hc Hi).
    replace p' with p in * by congruence. unfold int4. lia. }
  rewrite POST_orders_eq, Hc, Hs, Hall, Hfit, bool_decide_eq_false_2, bool_decide_eq_true_2;
    [|done|by rewrite Hnew; intros [? ?]].
  cbn [negb fst snd]. repeat split.
  - intros i p Hi Hp. by apply placed_stock_distinct.
  - intros k Hk. by apply placed_stock_other.
  - by apply GET_placed.
Qed.

(** *** The placement on concrete requests *)

(** C1: a product named by several line items should be checked against,
    and lose, the sum of their quantities. The handler does not do that.
    With two line items for the same product, of quantities 2 and 3, it
    checks the stock against 2 and decrements it by 2 twice: with stock 4
    the order is accepted and the stock becomes 0, with stock 5 it is
    accepted and the stock becomes 1. *)
Theorem POST_orders_repeated_product :
  (POST_orders O1 U [line P 2; line P 3] (shop 4)).2
    = created O1 U [line P 2; line P 3]
  /\ stock_of P (POST_orders O1 U [line P 2; line P 3] (shop 4)).1 = Some 0
  /\ (POST_orders O1 U [line P 2; line P 3] (shop 5)).2
    = created O1 U [line P 2; line P 3]
  /\ stock_of P (POST_orders O1 U [line P 2; line P 3] (shop 5)).1 = Some 1.
Proof. by vm_compute. Qed.

(** C2: a line item that asks for more than the stock of its product
    should make the placement fail and leave everything as it was. The
    handler misses it when an earlier line item names the same product: a
    second line item that asks for 10 out of a stock of 5 is not checked,
    the order is accepted, two order items are stored and the stock
    becomes 1. *)
Theorem POST_orders_later_line_unchecked :
  (POST_orders O1 U [line P 2; line P 10] (shop 5)).2
    = created O1 U [line P 2; line P 10]
  /\ stock_of P (POST_orders O1 U [line P 2; line P 10] (shop 5)).1 = Some 1
  /\ orderItems (POST_orders O1 U [line P 2; line P 10] (shop 5)).1
     = rows_of O1 [line P 2; line P 10].
Proof. by vm_compute. Qed.

(** C3: a valid placement should succeed, have the sum of unitPrice *
    quantity as its total, and take the summed quantity off the stock of
    each product. With two line items for one product, each within the
    stock (2 and 3 out of 5), the order is accepted and its total read back
    is 25.00, but the stock goes down by 4 and not by 5. With one line item
    (3 out of 10, 5.00 each) the order has one item, its total is 15.00 and
    the stock becomes 7. *)
Theorem POST_orders_stock_not_summed :
  let db' := (POST_orders O1 U [line P 2; line P 3] (shop 5)).1 in
  (POST_orders O1 U [line P 2; line P 3] (shop 5)).2 = created O1 U [line P 2; line P 3]
  /\ (GET_orders_id O1 db').2
     = Send 200 (Json (VOrder O1 {| userId := U |} (rows_of O1 [line P 2; line P 3])
                              (Some 25.0%float)))
  /\ stock_of P db' = Some (5 - 4)
  /\ let db1 := (POST_orders O1 U [line P 3] (shop 10)).1 in
     (POST_orders O1 U [line P 3] (shop 10)).2 = created O1 U [line P 3]
     /\ (GET_orders_id O1 db1).2
        = Send 200 (Json (VOrder O1 {| userId := U |} (rows_of O1 [line P 3])
                                 (Some 15.0%float)))
     /\ stock_of P db1 = Some 7.
Proof. by vm_compute. Qed.

(** A failing statement rolls back the ones that ran before it. *)
Lemma transaction_rollback (stmts : list Stmt) (db : Db) e :
  (transaction stmts db).2 = Err e -> (transaction stmts db).1 = db.
Proof.
  unfold transaction. by destruct (run_stmts stmts db) as [[db' vs]|e'].
Qed.

(** The order insert alone would succeed here; the update of a product
    that does not exist fails, and the order is not there afterwards. *)
Example transaction_rollback_after_insert :
  (exists db1 v, order_create O1 U [line P 3] (shop 10) = Ok (db1, v))
  /\ transaction [order_create O1 U [line P 3]; product_update_decrement Q 1] (shop 10)
     = (shop 10, Err P2025).
Proof. split; [by eexists _, _|by vm_compute]. Qed.


(** C6, as stated: a placement of two line items is accepted, and the
    order it returns carries no total. *)
Lemma POST_orders_no_total :
  let db := set_products <[Q := {| stock := 2; price := 5.0%float |}]> (shop 10) in
  (POST_orders O1 U [line P 3; line Q 1] db).2 = created O1 U [line P 3; line Q 1]
  /\ ~ exists order rows total,
        (POST_orders O1 U [line P 3; line Q 1] db).2
        = Send 201 (Json (VOrder O1 order rows (Some total))).
Proof.
  cbv zeta. split; [by vm_compute|].
  intros (order & rows & total & H). vm_compute in H. congruence.
Qed.

(** C6, amended: a successful placement returns the created order with
    its order items and without a total; the total, the sum over the order
    items of unitPrice * quantity, is computed when the order is read by
    [GET /orders/:id], which leaves the datastore as it is. *)
Theorem POST_orders_result (newId userId : Id) (orderItems : list OrderItemInput)
    (db db' : Db) (body : Body) :
  integrity db ->
  POST_orders newId userId orderItems db = (db', Send 201 body) ->
  body = Json (VOrder newId {| userId := userId |} (rows_of newId orderItems) None)
  /\ orderItems_of newId db' = rows_of newId orderItems
  /\ GET_orders_id newId db'
     = (db', Send 200 (Json (VOrder newId {| userId := userId |}
                               (rows_of newId orderItems)
                               (Some (sum_lines orderItems))))).
Proof.
  intros Hdb H.
  destruct (POST_orders_inv newId userId orderItems db)
    as [[_ (e & [He|He])]|(E & _ & _ & Hnew & _)].
  - rewrite H in He. discriminate.
  - rewrite H in He. discriminate.
  - rewrite H in E. injection E as -> ->. repeat split.
    + by apply orderItems_of_placed.
    + by apply GET_placed.
Qed.

Lemma integrity_shop n : integrity (shop n).
Proof.
  split.
  - intros id o H. by vm_compute in H.
  - intros row H. by apply elem_of_nil in H.
  - intros row H. by apply elem_of_nil in H.
Qed.

Lemma POST_orders_result_witness :
  GET_orders_id O1 (POST_orders O1 U [line P 3] (shop 10)).1
  = ((POST_orders O1 U [line P 3] (shop 10)).1,
     Send 200 (Json (VOrder O1 {| userId := U |} (rows_of O1 [line P 3])
                            (Some (sum_lines [line P 3]))))).
Proof.
  refine (proj2 (proj2 (POST_orders_result O1 U [line P 3] (shop 10)
            (POST_orders O1 U [line P 3] (shop 10)).1
            (Json (VOrder O1 {| userId := U |} (rows_of O1 [line P 3]) None))
            (integrity_shop 10) _))).
  vm_compute. reflexivity.
Defined.

(** C7, as stated: a line item names a product that does not exist; the
    request is answered neither 400 nor 404, the error goes to [next]. *)
Lemma POST_orders_unknown_product_not_404 :
  prepare [line Q 1] (shop 10) = Ok (updates [line Q 1])
  /\ POST_orders O1 U [line Q 1] (shop 10) = (shop 10, Next P2003)
  /\ ~ exists body, (POST_orders O1 U [line Q 1] (shop 10)).2 = Send 400 body
                    \/ (POST_orders O1 U [line Q 1] (shop 10)).2 = Send 404 body.
Proof.
  split; [by rewrite prepare_eq|]. split; [by vm_compute|].
  intros (body & [H|H]); vm_compute in H; discriminate.
Qed.

(** C7, amended: the stock check goes over the loaded products only, so a
    line item that names a missing product passes it. The placement still
    fails and leaves the datastore unchanged: with the Insufficient Stock
    error if a loaded product fails the check, otherwise in the commit step
    with the foreign-key error of the datastore, which [asyncHandler] hands
    to [next]. *)
Theorem POST_orders_unknown_product (newId userId : Id)
    (orderItems : list OrderItemInput) (db : Db) i :
  CreateOrder orderItems = true -> orders db !! newId = None ->
  i ∈ orderItems -> products db !! productId i = None ->
  prepare orderItems db
    = (if sufficient orderItems db then Ok (updates orderItems)
       else Err (JsError "Insufficient Stock"))
  /\ POST_orders newId userId orderItems db
     = (db, Next (if sufficient orderItems db then P2003
                  else JsError "Insufficient Stock")).
Proof.
  intros Hc Hnew Hi Hp. split.
  - rewrite prepare_eq, Hc. by destruct (sufficient orderItems db).
  - rewrite POST_orders_eq, Hc. cbn [negb].
    destruct (sufficient orderItems db); [|done]. cbn [negb].
    rewrite bool_decide_eq_false_2 by (rewrite Hnew; by intros [? ?]).
    destruct (bool_decide (is_Some (users db !! userId))); [|done]. cbn [negb].
    destruct (all_products_exist orderItems db) eqn:Hall; [|done].
    exfalso. destruct (proj1 (all_products_exist_true orderItems db) Hall (productId i))
      as [p' Hp']; [|congruence].
    apply list_elem_of_fmap. by exists i.
Qed.

Lemma POST_orders_unknown_product_witness :
  POST_orders O1 U [line Q 1] (shop 10)
  = (shop 10, Next (if sufficient [line Q 1] (shop 10) then P2003
                    else JsError "Insufficient Stock")).
Proof.
  refine (proj2 (POST_orders_unknown_product O1 U [line Q 1] (shop 10) (line Q 1) _ _ _ _)).
  - reflexivity.
  - reflexivity.
  - apply list_elem_of_here.
  - reflexivity.
Defined.

End OrderFacts.

(* ===================================================================== *)
(** ** Invariants of the datastore, one request at a time *)
(* ===================================================================== *)

Module Integrity.
Import Js Prisma App Outcome OrderFacts Sample.

Local Open Scope Z_scope.

Lemma GET_orders_id_db (id : Id) (db : Db) : (GET_orders_id id db).1 = db.
Proof.
  unfold GET_orders_id. destruct (order_findUniqueOrThrow id db) as [[o rows]|e]; done.
Qed.

Lemma existsb_false_elem {A} (f : A -> bool) (l : list A) (x : A) :
  existsb f l = false -> x ∈ l -> f x = false.
Proof.
  intros H Hx. apply list_elem_of_In in Hx.
  destruct (f x) eqn:E; [|done].
  assert (existsb f l = true) by (apply existsb_exists; eauto). congruence.
Qed.

(** [DELETE /products/:id], case by case. *)
Lemma DELETE_products_id_eq (id : Id) (db : Db) :
  DELETE_products_id id db =
    match products db !! id with
    | None => (db, Send 404 NoBody)
    | Some _ =>
        if existsb (fun row => bool_decide (productId (item row) = id)) (orderItems db)
        then (db, Next P2003)
        else (set_products (delete id) db, Send 204 NoBody)
    end.
Proof.
  unfold DELETE_products_id, exec, product_delete.
  destruct (products db !! id); [|done]. by destruct (existsb _ _).
Qed.

(** [DELETE /orders/:id], case by case. *)
Lemma DELETE_orders_id_eq (id : Id) (db : Db) :
  DELETE_orders_id id db =
    match orders db !! id with
    | None => (db, Send 404 NoBody)
    | Some _ =>
        if existsb (fun row => bool_decide (orderId row = id)) (orderItems db)
        then (db, Next P2003)
        else (set_orders (delete id) db, Send 204 NoBody)
    end.
Proof.
  unfold DELETE_orders_id, exec, order_delete.
  destruct (orders db !! id); [|done]. by destruct (existsb _ _).
Qed.

Lemma rows_of_elem (newId : Id) (orderItems : list OrderItemInput) row :
  row ∈ rows_of newId orderItems ->
  orderId row = newId /\ item row ∈ orderItems.
Proof.
  unfold rows_of. intros H. apply list_elem_of_fmap in H as (i & -> & Hi). done.
Qed.

Lemma placed_integrity (newId userId : Id) (orderItems : list OrderItemInput) (db : Db) :
  integrity db -> is_Some (users db !! userId) ->
  all_products_exist orderItems db = true ->
  integrity (placed newId userId orderItems db).
Proof.
  intros [Hou Hio Hip] Hu Hall. split; cbn [placed users orders Prisma.orderItems products].
  - intros id o. rewrite lookup_insert. case_decide.
    + intros [= <-]. done.
    + apply Hou.
  - intros row Hrow. rewrite lookup_insert. case_decide; [by eexists|].
    apply elem_of_app in Hrow as [Hrow|Hrow]; [by apply Hio|].
    apply rows_of_elem in Hrow as [E _]. congruence.
  - intros row Hrow. apply dom_decrement_all.
    apply elem_of_app in Hrow as [Hrow|Hrow]; [by apply Hip|].
    apply rows_of_elem in Hrow as [_ Hi].
    apply (proj1 (all_products_exist_true orderItems db) Hall).
    apply list_elem_of_fmap. by exists (item row).
Qed.

(** Every request keeps the foreign keys valid. *)
Lemma handle_integrity (req : Request) (db : Db) :
  integrity db -> integrity (handle req db).1.
Proof.
  intros Hdb. destruct req as [newId userId orderItems|id|id|id]; cbn [handle].
  - destruct (POST_orders_inv newId userId orderItems db)
      as [[-> _]|(-> & _ & _ & _ & Hu & Hall & _)]; [done|].
    by apply placed_integrity.
  - by rewrite GET_orders_id_db.
  - rewrite DELETE_products_id_eq. destruct (products db !! id) as [p|]; [|done].
    destruct (existsb _ _) eqn:E; [done|]. cbn [fst].
    destruct Hdb as [Hou Hio Hip]. split; cbn; [done..|].
    intros row Hrow. rewrite lookup_delete_ne; [by apply Hip|].
    pose proof (existsb_false_elem _ _ row E Hrow) as Hne. cbn in Hne.
    apply bool_decide_eq_false in Hne. congruence.
  - rewrite DELETE_orders_id_eq. destruct (orders db !! id) as [o|]; [|done].
    destruct (existsb _ _) eqn:E; [done|]. cbn [fst].
    destruct Hdb as [Hou Hio Hip]. split; cbn; [| |done].
    + intros id' o' H. apply lookup_delete_Some in H as [_ H]. by eapply Hou.
    + intros row Hrow. rewrite lookup_delete_ne; [by apply Hio|].
      pose proof (existsb_false_elem _ _ row E Hrow) as Hne. cbn in Hne.
      apply bool_decide_eq_false in Hne. congruence.
Qed.

(** Requests never remove order items. *)
Lemma handle_orderItems (req : Request) (db : Db) row :
  row ∈ orderItems db -> row ∈ orderItems (handle req db).1.
Proof.
  intros Hrow. destruct req as [newId userId orderItems|id|id|id]; cbn [handle].
  - destruct (POST_orders_inv newId userId orderItems db) as [[-> _]|(-> & _)]; [done|].
    cbn. apply elem_of_app. by left.
  - by rewrite GET_orders_id_db.
  - rewrite DELETE_products_id_eq. destruct (products db !! id); [|done].
    by destruct (existsb _ _).
  - rewrite DELETE_orders_id_eq. destruct (orders db !! id); [|done].
    by destruct (existsb _ _).
Qed.

(** The seed script deletes the order items before the products, so its
    deletions go through whatever the tables hold; deleting the products
    first is refused while an order item references one. *)
Lemma seed_clear (db : Db) : Seed.clear db = Ok Seed.empty.
Proof. reflexivity. Qed.

Lemma product_deleteMany_referenced (db : Db) (row : OrderItem) :
  row ∈ orderItems db -> is_Some (products db !! productId (item row)) ->
  Seed.product_deleteMany db = Err P2003.
Proof.
  intros Hrow Hp. unfold Seed.product_deleteMany.
  replace (existsb _ _) with true; [done|].
  symmetry. apply existsb_exists. exists row.
  split; [by apply list_elem_of_In|by apply bool_decide_eq_true].
Qed.

(** C9: a product that an order item references is not deleted.
    [DELETE /products/:id] on it fails with the foreign-key error and leaves
    the datastore as it was, and no other request removes the product or
    the order item. *)
Theorem referenced_product_not_deleted (db : Db) (id : Id) (p : Product) (row : OrderItem) :
  products db !! id = Some p -> row ∈ orderItems db -> productId (item row) = id ->
  DELETE_products_id id db = (db, Next P2003)
  /\ forall req, is_Some (products (handle req db).1 !! id)
                 /\ row ∈ orderItems (handle req db).1.
Proof.
  intros Hp Hrow Hid.
  assert (existsb (fun row => bool_decide (productId (item row) = id)) (orderItems db)
          = true) as Hex.
  { apply existsb_exists. exists row. split; [by apply list_elem_of_In|].
    by apply bool_decide_eq_true. }
  split.
  - by rewrite DELETE_products_id_eq, Hp, Hex.
  - intros req. split; [|by apply handle_orderItems].
    assert (is_Some (products db !! id)) as Hsome by eauto.
    destruct req as [newId userId orderItems|id'|id'|id']; cbn [handle].
    + destruct (POST_orders_inv newId userId orderItems db) as [[-> _]|(-> & _)];
        [done|].
      cbn [fst placed products]. by apply dom_decrement_all.
    + by rewrite GET_orders_id_db.
    + rewrite DELETE_products_id_eq. destruct (products db !! id') as [p'|] eqn:Hp';
        [|done].
      destruct (decide (id' = id)) as [->|Hne]; [by rewrite Hex|].
      clear Hex. destruct (existsb _ (orderItems db)); [done|].
      cbn. by rewrite lookup_delete_ne.
    + rewrite DELETE_orders_id_eq. destruct (orders db !! id'); [|done].
      clear Hex. by destruct (existsb _ _).
Qed.

Lemma referenced_product_not_deleted_witness :
  DELETE_products_id P shop_with_order = (shop_with_order, Next P2003).
Proof.
  refine (proj1 (referenced_product_not_deleted shop_with_order P
                   {| stock := 7; price := 5.0%float |}
                   {| orderId := O1; item := line P 3 |} _ _ _)).
  - vm_compute. reflexivity.
  - vm_compute. apply list_elem_of_here.
  - reflexivity.
Defined.

End Integrity.

(* ===================================================================== *)
(** ** Stock under sequential and interleaved placements *)
(* ===================================================================== *)

Module Interleaving.
Import Js Prisma App Sched Outcome OrderFacts Sample.

Local Open Scope Z_scope.

(** Serving both calls of one request back to back is the handler. *)
Lemma run_POST_orders_task (newId userId : Id) (orderItems : list OrderItemInput) (db : Db) :
  run [0%nat; 0%nat] (db, [POST_orders_task newId userId orderItems])
  = ((POST_orders newId userId orderItems db).1,
     [Responded (POST_orders newId userId orderItems db).2]).
Proof.
  unfold run, step, POST_orders_task, POST_orders. cbn.
  destruct (prepare orderItems db) as [qs|e]; cbn; [|done].
  by destruct (commit newId userId orderItems qs db).
Qed.

Lemma POST_orders_stock_nonneg (newId userId : Id) (orderItems : list OrderItemInput)
    (db : Db) :
  stock_nonneg db -> NoDup (map productId orderItems) ->
  stock_nonneg (POST_orders newId userId orderItems db).1.
Proof.
  intros Hdb Hnd.
  destruct (POST_orders_inv newId userId orderItems db)
    as [[-> _]|(-> & _ & Hs & _)]; [done|].
  intros k p'. cbn [fst placed products]. rewrite lookup_decrement_all.
  destruct (products db !! k) as [p|] eqn:Hp; [|done]. cbn. intros [= <-]. cbn.
  pose proof (Hdb k p Hp) as Hk.
  destruct (decide (k ∈ map productId orderItems)) as [Hin|Hout].
  - rewrite lines_of_NoDup by done.
    pose proof (proj1 (sufficient_true orderItems db) Hs k p Hin Hp). lia.
  - rewrite lines_of_notin by done. lia.
Qed.

Lemma handle_stock_nonneg (req : Request) (db : Db) :
  stock_nonneg db -> distinct_lines req -> stock_nonneg (handle req db).1.
Proof.
  intros Hdb Hreq. destruct req as [newId userId orderItems|id|id|id]; cbn [handle].
  - by apply POST_orders_stock_nonneg.
  - by rewrite Integrity.GET_orders_id_db.
  - rewrite Integrity.DELETE_products_id_eq. destruct (products db !! id); [|done].
    destruct (existsb _ _); [done|]. intros k pk Hk.
    unfold set_products in Hk. cbn in Hk.
    apply lookup_delete_Some in Hk as [_ Hk]. by eapply Hdb.
  - rewrite Integrity.DELETE_orders_id_eq. destruct (orders db !! id); [|done].
    by destruct (existsb _ _).
Qed.

(** C4, as stated: two placements of quantity 1 against a stock of 1. Both
    read the stock before either commits, both are accepted, and the stock
    that other requests then see is -1. *)
Lemma stock_negative_after_interleaving :
  let st := run [0; 1; 0; 1]%nat
              (shop 1,
               [POST_orders_task O1 U [line P 1]; POST_orders_task O2 U [line P 1]]) in
  stock_nonneg (shop 1)
  /\ responses st.2 = [Some (created O1 U [line P 1]); Some (created O2 U [line P 1])]
  /\ stock_of P st.1 = Some (-1)
  /\ ~ stock_nonneg st.1.
Proof.
  cbv zeta. split; [|split; [by vm_compute|split; [by vm_compute|]]].
  - intros id p H. unfold shop in H. cbn in H.
    apply lookup_singleton_Some in H as [_ <-]. done.
  - intros H. specialize (H P {| stock := -1; price := 5.0%float |}).
    assert (0 <= -1) as Hneg; [|lia]. apply H. by vm_compute.
Qed.

(** C4, amended: when requests are served one after the other and the
    line items of each placement name pairwise different products, no
    product's stock is negative after any request, given that none was
    before. *)
Theorem serve_stock_nonneg (reqs : list Request) (db : Db) :
  stock_nonneg db -> Forall distinct_lines reqs -> stock_nonneg (serve reqs db).
Proof.
  intros Hdb Hreqs. revert db Hdb.
  induction Hreqs as [|req reqs Hreq _ IH]; intros db Hdb; [done|].
  unfold serve. cbn [foldl]. apply IH. by apply handle_stock_nonneg.
Qed.

Lemma stock_nonneg_shop n : 0 <= n -> stock_nonneg (shop n).
Proof.
  intros Hn id p H. unfold shop in H. cbn in H.
  apply lookup_singleton_Some in H as [_ <-]. done.
Qed.

Lemma serve_stock_nonneg_witness :
  stock_nonneg (serve [PlaceOrder O1 U [line P 6]; PlaceOrder O2 U [line P 6];
                       GetOrder O1; DeleteProduct P] (shop 10)).
Proof.
  apply serve_stock_nonneg.
  - apply stock_nonneg_shop. lia.
  - constructor; [cbn; apply NoDup_singleton|].
    constructor; [cbn; apply NoDup_singleton|].
    constructor; [exact I|]. constructor; [exact I|]. constructor.
Defined.

(** C8, as stated: both requests read the stock before either commits;
    both are accepted and the stock ends at -2. *)
Lemma two_placements_both_accepted :
  let st := run [0; 1; 0; 1]%nat two_placements in
  Interleave [0; 0]%nat [1; 1]%nat [0; 1; 0; 1]%nat
  /\ responses st.2 = [Some (created O1 U [line P 6]); Some (created O2 U [line P 6])]
  /\ stock_of P st.1 = Some (-2).
Proof. cbv zeta. split; [by repeat constructor|by vm_compute]. Qed.

(** C8, amended: when one request is served completely before the other
    starts, exactly one placement is accepted, the other fails with
    Insufficient Stock and the stock ends at 4; in every other order of the
    four datastore calls both placements are accepted and the stock ends
    at -2. *)
Theorem two_placements_outcomes (schedule : list nat) :
  Interleave [0; 0]%nat [1; 1]%nat schedule ->
  let st := run schedule two_placements in
  (schedule = [0; 0; 1; 1]%nat
   /\ responses st.2 = [Some (created O1 U [line P 6]); Some insufficient_stock]
   /\ stock_of P st.1 = Some 4)
  \/ (schedule = [1; 1; 0; 0]%nat
      /\ responses st.2 = [Some insufficient_stock; Some (created O2 U [line P 6])]
      /\ stock_of P st.1 = Some 4)
  \/ (schedule <> [0; 0; 1; 1]%nat /\ schedule <> [1; 1; 0; 0]%nat
      /\ responses st.2 = [Some (created O1 U [line P 6]); Some (created O2 U [line P 6])]
      /\ stock_of P st.1 = Some (-2)).
Proof.
  intros H. cbv zeta.
  repeat match goal with
         | H : Interleave _ _ _ |- _ => inversion H; subst; clear H
         end.
  - left. by vm_compute.
  - right. right. split; [done|]. split; [done|]. by vm_compute.
  - right. right. split; [done|]. split; [done|]. by vm_compute.
  - right. right. split; [done|]. split; [done|]. by vm_compute.
  - right. right. split; [done|]. split; [done|]. by vm_compute.
  - right. left. by vm_compute.
Qed.

Lemma two_placements_outcomes_witness :
  let st := run [0; 0; 1; 1]%nat two_placements in
  responses st.2 = [Some (created O1 U [line P 6]); Some insufficient_stock]
  /\ stock_of P st.1 = Some 4.
Proof.
  destruct (two_placements_outcomes [0; 0; 1; 1]%nat) as [(_ & H)|[(E & _)|(E & _)]].
  - repeat constructor.
  - exact H.
  - discriminate E.
  - by destruct E.
Defined.

End Interleaving.

(* ===================================================================== *)
(** ** The login token *)
(* ===================================================================== *)

Module Token.
Import Js Prisma App JsFacts Sample.

Section Login.

Variable bcrypt_compare : jsstring -> jsstring -> bool.
Variable Login : jsstring * jsstring -> bool.



Lemma user_findUnique_email_Some (e : jsstring) (db : Db) id user :
  user_findUnique_email e db = Some (id, user) ->
  users db !! id = Some user /\ email user = e.
Proof.
  unfold user_findUnique_email. intros H. apply find_some in H as [Hin He].
  split.
  - apply elem_of_map_to_list. by apply list_elem_of_In.
  - by apply bool_decide_eq_true in He.
Qed.

(** A login that sets the cookie found the user and checked the password. *)
Lemma POST_auth_login_cookie (e password : jsstring) (db : Db) token status body :
  POST_auth_login bcrypt_compare Login e password db = SendWithCookie token status body ->
  exists id user,
    user_findUnique_email e db = Some (id, user)
    /\ bcrypt_compare password (Prisma.password user) = true
    /\ token = login_token id password.
Proof.
  unfold POST_auth_login, assert. destruct (Login (e, password)); [|done]. cbn.
  destruct (user_findUnique_email e db) as [[id user]|]; [|done].
  destruct (bcrypt_compare password (Prisma.password user)) eqn:E; [|done].
  cbn. intros [= <- _ _]. by exists id, user.
Qed.

(** What [auth] reads out of a token made by the login. *)
Lemma decode_login_token (id password : jsstring) :
  is_ascii id -> is_ascii password -> colon ∉ id -> colon ∉ password ->
  decode_token (login_token id password) = (Some id, Some password).
Proof.
  intros Hid Hpw Hcid Hcpw. unfold decode_token, login_token.
  rewrite Buffer_from_base64_toString, toString_ascii_Buffer_from.
  - by rewrite split_app, split_no_sep.
  - apply is_ascii_app; [done|]. apply Forall_cons. split; [|done].
    unfold colon. lia.
Qed.



End Login.


(** The middleware depends on the round trip: with a password that holds a
    ':' or a character outside ASCII, the login succeeds and the token it
    issued is refused. *)
Example auth_refuses_colon_password :
  exists token,
    POST_auth_login same_password any_login (js "u1@example.com") (js "a:b")
      (members (js "a:b"))
    = SendWithCookie token 200 (Message "Logged in successfully")
    /\ decode_token token = (Some U, Some (js "a"))
    /\ auth same_password (Some token) (members (js "a:b"))
       = Denied (Send 401 (Message "Invalid credentials in token")).
Proof. eexists. split; [by vm_compute|]. by vm_compute. Qed.

(** The decoder reads the low eight bits of a code unit: U+0164 in place
    of 'd' gives the same token. *)
Example auth_reads_low_eight_bits :
  decode_token (356%N :: js "TE6c2VjcmV0") = decode_token (js "dTE6c2VjcmV0")
  /\ auth same_password (Some (356%N :: js "TE6c2VjcmV0")) (members (js "secret"))
     = ReqUser U {| email := js "u1@example.com"; password := js "secret" |}.
Proof. by vm_compute. Qed.

Example auth_refuses_non_ascii_password :
  exists token,
    POST_auth_login same_password any_login (js "u1@example.com") [233%N]
      (members [233%N])
    = SendWithCookie token 200 (Message "Logged in successfully")
    /\ Buffer_from_base64 token = Buffer_from (U ++ colon :: [233%N])
    /\ decode_token token = (Some U, Some (js "C)"))
    /\ auth same_password (Some token) (members [233%N])
       = Denied (Send 401 (Message "Invalid credentials in token")).
Proof. eexists. split; [by vm_compute|]. by vm_compute. Qed.

End Token.

(* ===================================================================== *)
(** ** More on [POST /orders] and the routes around it *)
(* ===================================================================== *)

Module PlacementFacts.
Import Js Prisma App Sched Outcome Routes Sample OrderFacts.

Local Open Scope Z_scope.

Lemma quantity_of_positive (orderItems : list OrderItemInput) (id : Id) :
  CreateOrder orderItems = true -> id ∈ map productId orderItems ->
  0 < quantity_of orderItems id.
Proof.
  intros Hc Hid. unfold quantity_of.
  destruct (List.find _ orderItems) as [i|] eqn:E.
  - apply find_some in E as [Hi _]. apply list_elem_of_In in Hi.
    by eapply CreateOrder_positive.
  - apply list_elem_of_fmap in Hid as (i & -> & Hi). apply list_elem_of_In in Hi.
    pose proof (find_none _ _ E i Hi) as Hn. cbn in Hn.
    by rewrite bool_decide_eq_false in Hn.
Qed.

(** For a body that passed the struct and the stock check, on stocks the
    column holds: the updates fit exactly when the last stock of every
    product named does. *)
Lemma stock_fits_true (orderItems : list OrderItemInput) (db : Db) :
  CreateOrder orderItems = true -> int4_stocks db ->
  stock_fits orderItems db = true
  <-> forall k p, k ∈ map productId orderItems -> products db !! k = Some p ->
        -2147483648 <= stock p - Z.of_nat (lines_of k (map productId orderItems))
                                 * quantity_of orderItems k.
Proof.
  intros Hc Hdb. apply decrements_fit_true.
  - intros id Hid. pose proof (quantity_of_positive orderItems id Hc Hid). lia.
  - intros k p Hk Hp. pose proof (quantity_of_positive orderItems k Hc Hk).
    specialize (Hdb k p Hp). unfold int4 in Hdb. lia.
Qed.

(** X1: with quantities and stocks that an INTEGER column holds,
    [POST /orders] has six answers: 201 with the created order, 400 from
    the struct check, or an error handed to [next] that is Insufficient
    Stock, P2002, P2003 or P2020. P2020, a stock decremented below the range
    of its column, needs a product named by two line items or more. The
    handler never answers 404, [getQuantity] never throws, and the datastore
    changes only with the 201. *)
Theorem POST_orders_answers (newId userId : Id) (orderItems : list OrderItemInput)
    (db : Db) :
  int4_quantities orderItems -> int4_stocks db ->
  POST_orders newId userId orderItems db
    = (placed newId userId orderItems db, created newId userId orderItems)
  \/ (POST_orders newId userId orderItems db).1 = db
     /\ ((POST_orders newId userId orderItems db).2 = Send 400 (ErrorMessage StructError)
         \/ (POST_orders newId userId orderItems db).2 = Next (JsError "Insufficient Stock")
         \/ (POST_orders newId userId orderItems db).2 = Next P2002
         \/ (POST_orders newId userId orderItems db).2 = Next P2003
         \/ (POST_orders newId userId orderItems db).2 = Next P2020
            /\ exists k, (2 <= lines_of k (map productId orderItems))%nat).
Proof.
  intros _ Hdb. rewrite POST_orders_eq.
  destruct (CreateOrder orderItems) eqn:Hc; [|right; auto].
  destruct (sufficient orderItems db) eqn:Hs; [|right; auto].
  destruct (bool_decide (is_Some (orders db !! newId))); [right; auto 6|].
  destruct (bool_decide (is_Some (users db !! userId))); [|right; auto 6].
  destruct (all_products_exist orderItems db); [|right; auto 6].
  destruct (stock_fits orderItems db) eqn:Hfit; [by left|].
  right. split; [done|]. do 4 right. split; [done|].
  destruct (decide (Forall (fun k => (lines_of k (map productId orderItems) <= 1)%nat)
                      (map productId orderItems))) as [Hall|Hex].
  - exfalso. rewrite Forall_forall in Hall.
    assert (stock_fits orderItems db = true) as E; [|congruence].
    apply stock_fits_true; [done..|]. intros k p Hk Hp.
    pose proof (lines_of_elem k _ Hk). pose proof (Hall k Hk).
    replace (lines_of k (map productId orderItems)) with 1%nat by lia.
    pose proof (proj1 (sufficient_true orderItems db) Hs k p Hk Hp).
    pose proof (quantity_of_positive orderItems k Hc Hk). lia.
  - apply not_Forall_Exists in Hex; [|apply _].
    apply Exists_exists in Hex as (k & _ & Hk). exists k. cbn in Hk. lia.
Qed.

Lemma int4_stocks_shop (n : Z) : int4 n = true -> int4_stocks (shop n).
Proof.
  intros Hn id p Hp. unfold shop in Hp. cbn [products] in Hp.
  apply lookup_singleton_Some in Hp as [_ <-]. done.
Qed.

Lemma int4_quantities_intro (orderItems : list OrderItemInput) :
  forallb (fun i => quantity i <=? 2147483647) orderItems = true ->
  int4_quantities orderItems.
Proof.
  rewrite forallb_forall. intros H i Hi. apply list_elem_of_In in Hi.
  specialize (H i Hi). lia.
Qed.

Lemma POST_orders_answers_witness :
  POST_orders O1 U [line P 2147483647; line P 1; line P 1] (shop 2147483647)
    = (placed O1 U [line P 2147483647; line P 1; line P 1] (shop 2147483647),
       created O1 U [line P 2147483647; line P 1; line P 1])
  \/ (POST_orders O1 U [line P 2147483647; line P 1; line P 1] (shop 2147483647)).1
     = shop 2147483647
     /\ ((POST_orders O1 U [line P 2147483647; line P 1; line P 1] (shop 2147483647)).2
           = Send 400 (ErrorMessage StructError)
         \/ (POST_orders O1 U [line P 2147483647; line P 1; line P 1] (shop 2147483647)).2
           = Next (JsError "Insufficient Stock")
         \/ (POST_orders O1 U [line P 2147483647; line P 1; line P 1] (shop 2147483647)).2
           = Next P2002
         \/ (POST_orders O1 U [line P 2147483647; line P 1; line P 1] (shop 2147483647)).2
           = Next P2003
         \/ (POST_orders O1 U [line P 2147483647; line P 1; line P 1] (shop 2147483647)).2
           = Next P2020
            /\ exists k,
                 (2 <= lines_of k (map productId [line P 2147483647; line P 1; line P 1]))%nat).
Proof.
  apply (POST_orders_answers O1 U [line P 2147483647; line P 1; line P 1]
           (shop 2147483647)).
  - apply int4_quantities_intro. vm_compute. reflexivity.
  - apply int4_stocks_shop. vm_compute. reflexivity.
Defined.

(** The third update of a stock of 2147483647 by 2147483647 leaves the
    range of the column: the placement is handed to [next] with P2020 and
    nothing is written. *)
Example POST_orders_out_of_range :
  POST_orders O1 U [line P 2147483647; line P 1; line P 1] (shop 2147483647)
  = (shop 2147483647, Next P2020).
Proof. by vm_compute. Qed.

(** X2: with quantities and stocks that an INTEGER column holds, a
    placement is accepted exactly when the body passes the struct, every
    product named exists, has at least the quantity of the first line item
    that names it and stays within the range of its column when that
    quantity is taken off once per line item that names it, the user exists
    and the generated order id is not taken. *)
Theorem POST_orders_accepted_iff (newId userId : Id) (orderItems : list OrderItemInput)
    (db : Db) :
  int4_quantities orderItems -> int4_stocks db ->
  (POST_orders newId userId orderItems db).2 = created newId userId orderItems
  <-> CreateOrder orderItems = true
      /\ (forall i, i ∈ orderItems ->
            exists p, products db !! productId i = Some p
                      /\ quantity_of orderItems (productId i) <= stock p
                      /\ -2147483648
                         <= stock p
                            - Z.of_nat (lines_of (productId i) (map productId orderItems))
                              * quantity_of orderItems (productId i))
      /\ is_Some (users db !! userId)
      /\ orders db !! newId = None.
Proof.
  intros _ Hdb. split.
  - intros H.
    destruct (POST_orders_inv newId userId orderItems db)
      as [[_ (e & [He|He])]|(_ & Hc & Hs & Hnew & Hu & Hall & Hfit)];
      [rewrite H in He; discriminate..|].
    repeat split; try done.
    intros i Hi.
    assert (productId i ∈ map productId orderItems) as Hin
      by (apply list_elem_of_fmap; by exists i).
    destruct (proj1 (all_products_exist_true orderItems db) Hall _ Hin) as [p Hp].
    exists p. split; [done|]. split; [by eapply sufficient_true|].
    by apply (proj1 (stock_fits_true orderItems db Hc Hdb) Hfit).
  - intros (Hc & Hi & Hu & Hnew). rewrite POST_orders_eq, Hc. cbn [negb].
    replace (sufficient orderItems db) with true; cycle 1.
    { symmetry. apply sufficient_true. intros id p Hid Hp.
      apply list_elem_of_fmap in Hid as (i & -> & Hin).
      destruct (Hi i Hin) as (p' & Hp' & Hq & _). congruence. }
    replace (all_products_exist orderItems db) with true; cycle 1.
    { symmetry. apply all_products_exist_true. intros id Hid.
      apply list_elem_of_fmap in Hid as (i & -> & Hin).
      destruct (Hi i Hin) as (p' & Hp' & _). by eexists. }
    replace (stock_fits orderItems db) with true; cycle 1.
    { symmetry. apply stock_fits_true; [done..|]. intros id p Hid Hp.
      apply list_elem_of_fmap in Hid as (i & -> & Hin).
      destruct (Hi i Hin) as (p' & Hp' & _ & Hlow). congruence. }
    rewrite bool_decide_eq_false_2 by (rewrite Hnew; by intros [? ?]).
    by rewrite bool_decide_eq_true_2.
Qed.

Lemma POST_orders_accepted_iff_witness :
  (POST_orders O1 U [line P 2; line P 3] (shop 4)).2 = created O1 U [line P 2; line P 3]
  <-> CreateOrder [line P 2; line P 3] = true
      /\ (forall i, i ∈ [line P 2; line P 3] ->
            exists p, products (shop 4) !! productId i = Some p
                      /\ quantity_of [line P 2; line P 3] (productId i) <= stock p
                      /\ -2147483648
                         <= stock p
                            - Z.of_nat (lines_of (productId i)
                                          (map productId [line P 2; line P 3]))
                              * quantity_of [line P 2; line P 3] (productId i))
      /\ is_Some (users (shop 4) !! U)
      /\ orders (shop 4) !! O1 = None.
Proof.
  apply (POST_orders_accepted_iff O1 U [line P 2; line P 3] (shop 4)).
  - apply int4_quantities_intro. vm_compute. reflexivity.
  - apply int4_stocks_shop. vm_compute. reflexivity.
Defined.

(** X3: after an accepted placement the stock of every product is down by
    the quantity of the first line item that names it, once per line item
    that names it; the price of the product and the users are untouched. *)
Theorem POST_orders_stock_law (newId userId : Id) (orderItems : list OrderItemInput)
    (db db' : Db) (body : Body) :
  POST_orders newId userId orderItems db = (db', Send 201 body) ->
  users db' = users db
  /\ forall k,
       products db' !! k
       = (fun p => {| stock := stock p
                               - Z.of_nat (lines_of k (map productId orderItems))
                                 * quantity_of orderItems k;
                      price := price p |}) <$> products db !! k.
Proof.
  intros H.
  destruct (POST_orders_inv newId userId orderItems db)
    as [[_ (e & [He|He])]|(E & _)]; [rewrite H in He; discriminate..|].
  rewrite H in E. injection E as -> _. split; [done|].
  intros k. cbn [placed products]. apply lookup_decrement_all.
Qed.

Lemma POST_orders_stock_law_witness :
  products (POST_orders O1 U [line P 2; line P 3; line Q 1]
              (set_products <[Q := {| stock := 2; price := 5.0%float |}]> (shop 5))).1 !! P
  = (fun p => {| stock := stock p
                          - Z.of_nat (lines_of P (map productId [line P 2; line P 3; line Q 1]))
                            * quantity_of [line P 2; line P 3; line Q 1] P;
                 price := price p |})
    <$> products (set_products <[Q := {| stock := 2; price := 5.0%float |}]> (shop 5)) !! P.
Proof.
  refine (proj2 (POST_orders_stock_law O1 U [line P 2; line P 3; line Q 1]
                   (set_products <[Q := {| stock := 2; price := 5.0%float |}]> (shop 5))
                   _ (Json (VOrder O1 {| userId := U |}
                              (rows_of O1 [line P 2; line P 3; line Q 1]) None)) _) P).
  vm_compute. reflexivity.
Defined.

Lemma rows_of_nonempty (newId : Id) (orderItems : list OrderItemInput) :
  orderItems <> [] ->
  exists row, row ∈ rows_of newId orderItems /\ orderId row = newId.
Proof.
  destruct orderItems as [|i l]; [done|]. intros _.
  exists {| orderId := newId; item := i |}. split; [left|done].
Qed.

(** X4: an order placed through [POST /orders] with at least one line
    item cannot be removed through [DELETE /orders/:id]: its order items
    reference it and the foreign key restricts the delete. The request is
    handed to [next] with P2003 and nothing changes. *)
Theorem placed_order_not_deletable (newId userId : Id)
    (orderItems : list OrderItemInput) (db db' : Db) (body : Body) :
  POST_orders newId userId orderItems db = (db', Send 201 body) ->
  orderItems <> [] ->
  DELETE_orders_id newId db' = (db', Next P2003).
Proof.
  intros H Hne.
  destruct (POST_orders_inv newId userId orderItems db)
    as [[_ (e & [He|He])]|(E & _)]; [rewrite H in He; discriminate..|].
  rewrite H in E. injection E as -> _.
  rewrite Integrity.DELETE_orders_id_eq. cbn [placed orders Prisma.orderItems].
  rewrite lookup_insert_eq.
  replace (existsb _ _) with true; [done|].
  symmetry. apply existsb_exists.
  destruct (rows_of_nonempty newId orderItems Hne) as (row & Hrow & Hid).
  exists row. split; [|by apply bool_decide_eq_true].
  apply list_elem_of_In, elem_of_app. by right.
Qed.

Lemma placed_order_not_deletable_witness :
  DELETE_orders_id O1 shop_with_order = (shop_with_order, Next P2003).
Proof.
  apply (placed_order_not_deletable O1 U [line P 3] (shop 10) shop_with_order
           (Json (VOrder O1 {| userId := U |} (rows_of O1 [line P 3]) None))).
  - vm_compute. reflexivity.
  - discriminate.
Defined.

(** X5: when [DELETE /products/:id] answers 204, no order item referenced
    the product, the product is gone and nothing else changed; reading it
    then gives an empty 200 (not a 404), and deleting it again gives 404. *)
Theorem DELETE_products_id_then_read (id : Id) (db db' : Db) :
  DELETE_products_id id db = (db', Send 204 NoBody) ->
  (forall row, row ∈ orderItems db -> productId (item row) <> id)
  /\ db' = set_products (delete id) db
  /\ GET_products_id id db' = (db', Send 200 NoBody)
  /\ DELETE_products_id id db' = (db', Send 404 NoBody).
Proof.
  rewrite Integrity.DELETE_products_id_eq.
  destruct (products db !! id) as [p|] eqn:Hp; [|discriminate].
  destruct (existsb _ _) eqn:E; [discriminate|].
  intros [= <-]. split; [|split; [done|]].
  - intros row Hrow Hid.
    pose proof (Integrity.existsb_false_elem _ _ row E Hrow) as Hf. cbn in Hf.
    by apply bool_decide_eq_false in Hf.
  - rewrite Integrity.DELETE_products_id_eq. unfold GET_products_id.
    cbn [set_products products]. by rewrite lookup_delete_eq.
Qed.

Lemma DELETE_products_id_then_read_witness :
  GET_products_id P (set_products (delete P) (shop 3))
  = (set_products (delete P) (shop 3), Send 200 NoBody).
Proof.
  refine (proj1 (proj2 (proj2 (DELETE_products_id_then_read P (shop 3)
                                 (set_products (delete P) (shop 3)) _)))).
  vm_compute. reflexivity.
Defined.

Lemma orderItems_of_placed_other (newId userId id : Id)
    (orderItems : list OrderItemInput) (db : Db) :
  id <> newId ->
  orderItems_of id (placed newId userId orderItems db) = orderItems_of id db.
Proof.
  intros Hne. unfold orderItems_of, placed. cbn [Prisma.orderItems].
  rewrite filter_app, (filter_none _ (rows_of newId orderItems)), app_nil_r; [done|].
  intros row Hrow E. apply Integrity.rows_of_elem in Hrow as [E' _]. congruence.
Qed.

(** X6: an order reads back the same, with the same items and the same
    total, after any request other than the delete of that very order:
    placements, deletes of products and deletes of other orders leave its
    rows alone. *)
Theorem GET_orders_id_stable (req : Request) (id : Id) (o : Order) (db : Db) :
  orders db !! id = Some o -> req <> DeleteOrder id ->
  (GET_orders_id id (handle req db).1).2 = (GET_orders_id id db).2.
Proof.
  intros Ho Hreq.
  destruct req as [newId userId orderItems|id'|id'|id']; cbn [handle].
  - destruct (POST_orders_inv newId userId orderItems db)
      as [[-> _]|(-> & _ & _ & Hnew & _)]; [done|].
    assert (id <> newId) as Hne by congruence.
    unfold GET_orders_id, order_findUniqueOrThrow. cbn [fst].
    rewrite orderItems_of_placed_other by done.
    cbn [placed orders]. rewrite lookup_insert_ne by congruence. by rewrite Ho.
  - by rewrite Integrity.GET_orders_id_db.
  - rewrite Integrity.DELETE_products_id_eq. destruct (products db !! id'); [|done].
    destruct (existsb _ _); [done|].
    unfold GET_orders_id, order_findUniqueOrThrow, orderItems_of. cbn. by rewrite Ho.
  - rewrite Integrity.DELETE_orders_id_eq. destruct (orders db !! id') eqn:Ho'; [|done].
    destruct (existsb _ _); [done|].
    assert (id' <> id) as Hne by congruence.
    unfold GET_orders_id, order_findUniqueOrThrow, orderItems_of. cbn.
    rewrite lookup_delete_ne by done. by rewrite Ho.
Qed.

Lemma GET_orders_id_stable_witness :
  (GET_orders_id O1 (handle (PlaceOrder O2 U [line P 7]) shop_with_order).1).2
  = (GET_orders_id O1 shop_with_order).2.
Proof.
  apply (GET_orders_id_stable (PlaceOrder O2 U [line P 7]) O1 {| userId := U |}).
  - vm_compute. reflexivity.
  - discriminate.
Defined.

(** X7: after an accepted placement, [GET /orders] lists the new order
    and the orders it listed before, and [GET /users/:id/orders] lists the
    new order for the user who placed it and for nobody else. *)
Theorem placed_order_listed (newId userId : Id) (orderItems : list OrderItemInput)
    (db db' : Db) (body : Body) :
  POST_orders newId userId orderItems db = (db', Send 201 body) ->
  (exists rows rows',
     GET_orders db = SendRows 200 rows /\ GET_orders db' = SendRows 200 rows'
     /\ rows' ≡ₚ (newId, {| userId := userId |}) :: rows)
  /\ forall u rows,
       GET_users_id_orders u db = SendRows 200 rows ->
       exists rows',
         GET_users_id_orders u db' = SendRows 200 rows'
         /\ rows' ≡ₚ (if decide (u = userId)
                      then (newId, {| userId := userId |}) :: rows else rows).
Proof.
  intros H.
  destruct (POST_orders_inv newId userId orderItems db)
    as [[_ (e & [He|He])]|(E & _ & _ & Hnew & _)]; [rewrite H in He; discriminate..|].
  rewrite H in E. injection E as -> _.
  assert (map_to_list (orders (placed newId userId orderItems db))
          ≡ₚ (newId, {| userId := userId |}) :: map_to_list (orders db)) as Hperm
    by (cbn [placed orders]; by apply map_to_list_insert).
  split.
  - by eexists _, _.
  - intros u rows. unfold GET_users_id_orders, user_findUniqueOrThrow.
    cbn [placed users]. destruct (users db !! u); [|done].
    intros [= <-]. eexists. split; [done|].
    rewrite Hperm, filter_cons. cbn [snd Prisma.userId].
    destruct (decide (userId = u)) as [->|Hne].
    + by rewrite decide_True.
    + by rewrite decide_False by congruence.
Qed.

Lemma placed_order_listed_witness :
  exists rows rows',
    GET_orders (shop 10) = SendRows 200 rows
    /\ GET_orders shop_with_order = SendRows 200 rows'
    /\ rows' ≡ₚ (O1, {| userId := U |}) :: rows.
Proof.
  refine (proj1 (placed_order_listed O1 U [line P 3] (shop 10) shop_with_order
                   (Json (VOrder O1 {| userId := U |} (rows_of O1 [line P 3]) None)) _)).
  vm_compute. reflexivity.
Defined.







(** X23: the deletions of the seed script go through on every datastore
    and leave the four tables empty, because the order items go first; the
    delete of the orders or of the products is refused as long as an order
    item references one of them. *)
Theorem seed_deletion_order (db : Db) :
  Seed.clear db = Ok Seed.empty
  /\ (forall row, row ∈ orderItems db -> is_Some (orders db !! orderId row) ->
        Seed.order_deleteMany db = Err P2003)
  /\ (forall row, row ∈ orderItems db -> is_Some (products db !! productId (item row)) ->
        Seed.product_deleteMany db = Err P2003).
Proof.
  split; [done|]. split.
  - intros row Hrow Ho. unfold Seed.order_deleteMany.
    replace (existsb _ _) with true; [done|].
    symmetry. apply existsb_exists. exists row.
    split; [by apply list_elem_of_In|by apply bool_decide_eq_true].
  - intros row Hrow Hp. by eapply Integrity.product_deleteMany_referenced.
Qed.

End PlacementFacts.

(* ===================================================================== *)
(** ** Any number of requests in flight, served in any order *)
(* ===================================================================== *)

Module RaceFacts.
Import Js Prisma App Sched Outcome Routes Sample OrderFacts.

Local Open Scope Z_scope.

Lemma on_error_not_201 (e : Error) (body : Body) : on_error e <> Send 201 body.
Proof.
  destruct e as [| |code|message|message|]; cbn; try done.
  by destruct (String.eqb code "P2025").
Qed.

Lemma answered_201_on_error (e : Error) : answered_201 (Responded (on_error e)) = false.
Proof.
  destruct e as [| |code|message|message|]; cbn; try done.
  by destruct (String.eqb code "P2025").
Qed.

(** The requests other than placements never answer 201 and never add a
    product or change one. *)
Lemma handle_other (req : Request) (db : Db) :
  (forall newId userId orderItems, req <> PlaceOrder newId userId orderItems) ->
  answered_201 (Responded (handle req db).2) = false
  /\ forall k p, products (handle req db).1 !! k = Some p -> products db !! k = Some p.
Proof.
  intros Hreq. destruct req as [newId userId orderItems|id|id|id]; cbn [handle].
  - by destruct (Hreq newId userId orderItems).
  - unfold GET_orders_id. destruct (order_findUniqueOrThrow id db) as [[o rows]|e];
      [done|]. split; [apply answered_201_on_error|done].
  - rewrite Integrity.DELETE_products_id_eq. destruct (products db !! id); [|done].
    destruct (existsb _ _); [done|]. split; [done|].
    intros k pk Hk. unfold set_products in Hk. cbn in Hk.
    by apply lookup_delete_Some in Hk as [_ Hk].
  - rewrite Integrity.DELETE_orders_id_eq. destruct (orders db !! id); [|done].
    by destruct (existsb _ _).
Qed.

Lemma debited_insert (k : Id) (reqs : list Request) (tasks : list Task)
    (i : nat) req t t' :
  reqs !! i = Some req -> tasks !! i = Some t ->
  debited k reqs (<[i := t']> tasks)
  = debited k reqs tasks - charge k req t + charge k req t'.
Proof.
  unfold debited. revert tasks i.
  induction reqs as [|r reqs IH]; intros tasks i Hr Ht; [done|].
  destruct tasks as [|u tasks]; [done|]. destruct i as [|i].
  - cbn in Hr, Ht. injection Hr as ->. injection Ht as ->.
    change (<[0%nat:=t']> (t :: tasks)) with (t' :: tasks).
    cbn [zip_with foldr]. lia.
  - cbn in Hr, Ht.
    change (<[S i:=t']> (u :: tasks)) with (u :: <[i:=t']> tasks).
    cbn [zip_with foldr]. rewrite (IH tasks i) by done. lia.
Qed.

(** One datastore call served: the handlers stay in one of their states,
    and the datastore either stays as it is, or is the result of a request
    that is no placement, or gets the writes of one whole placement. *)
Lemma step_transition (reqs : list Request) (tasks : list Task) (db : Db) (i : nat) :
  Forall2 task_state reqs tasks ->
  Forall2 task_state reqs (step i (db, tasks)).2
  /\ ((step i (db, tasks)).1 = db
      /\ (forall k, debited k reqs (step i (db, tasks)).2 = debited k reqs tasks)
      \/ (exists req,
            (forall newId userId orderItems, req <> PlaceOrder newId userId orderItems)
            /\ (step i (db, tasks)).1 = (handle req db).1
            /\ forall k, debited k reqs (step i (db, tasks)).2 = debited k reqs tasks)
      \/ (exists newId userId orderItems,
            (step i (db, tasks)).1 = placed newId userId orderItems db
            /\ is_Some (users db !! userId)
            /\ all_products_exist orderItems db = true
            /\ forall k, debited k reqs (step i (db, tasks)).2
                         = debited k reqs tasks
                           + debit k (PlaceOrder newId userId orderItems))).
Proof.
  intros Hst. unfold step. cbn [fst snd].
  destruct (tasks !! i) as [t|] eqn:Ht; [|by auto].
  destruct (Forall2_lookup_r _ _ _ _ _ Hst Ht) as (req & Hr & Hs).
  assert (forall t', task_state req t' -> Forall2 task_state reqs (<[i := t']> tasks))
    as Hins.
  { intros t' Ht'. rewrite <- (list_insert_id reqs i req Hr). by apply Forall2_insert. }
  destruct Hs as [req|newId userId orderItems|req r]; [| |by auto].
  - destruct req as [newId userId orderItems|id|id|id].
    + cbn [task_of]. unfold POST_orders_task. rewrite prepare_eq.
      destruct (CreateOrder orderItems); cbn [negb];
        [destruct (sufficient orderItems db); cbn [negb]|]; cbn [fst snd].
      * split; [apply Hins, state_committing|]. left. split; [done|]. intros k.
        rewrite (debited_insert k reqs tasks i _ _ _ Hr Ht). unfold charge. cbn. lia.
      * split; [apply Hins, state_responded|]. left. split; [done|]. intros k.
        rewrite (debited_insert k reqs tasks i _ _ _ Hr Ht). unfold charge. cbn. lia.
      * split; [apply Hins, state_responded|]. left. split; [done|]. intros k.
        rewrite (debited_insert k reqs tasks i _ _ _ Hr Ht). unfold charge. cbn. lia.
    + cbn [task_of]. destruct (handle (GetOrder id) db) as [db' r] eqn:E. cbn [fst snd].
      split; [apply Hins, state_responded|]. right. left.
      exists (GetOrder id). rewrite E. split; [done|]. split; [done|]. intros k.
      rewrite (debited_insert k reqs tasks i _ _ _ Hr Ht). unfold charge. cbn [debit].
      do 2 destruct (answered_201 _); lia.
    + cbn [task_of]. destruct (handle (DeleteProduct id) db) as [db' r] eqn:E.
      cbn [fst snd].
      split; [apply Hins, state_responded|]. right. left.
      exists (DeleteProduct id). rewrite E. split; [done|]. split; [done|]. intros k.
      rewrite (debited_insert k reqs tasks i _ _ _ Hr Ht). unfold charge. cbn [debit].
      do 2 destruct (answered_201 _); lia.
    + cbn [task_of]. destruct (handle (DeleteOrder id) db) as [db' r] eqn:E. cbn [fst snd].
      split; [apply Hins, state_responded|]. right. left.
      exists (DeleteOrder id). rewrite E. split; [done|]. split; [done|]. intros k.
      rewrite (debited_insert k reqs tasks i _ _ _ Hr Ht). unfold charge. cbn [debit].
      do 2 destruct (answered_201 _); lia.
  - unfold commit_task. rewrite commit_updates_eq.
    destruct (bool_decide (is_Some (orders db !! newId))); cbn [fst snd].
    { split; [apply Hins, state_responded|]. left. split; [done|]. intros k.
      rewrite (debited_insert k reqs tasks i _ _ _ Hr Ht). unfold charge. cbn. lia. }
    destruct (bool_decide (is_Some (users db !! userId))) eqn:Hu; cbn [negb fst snd]; cycle 1.
    { split; [apply Hins, state_responded|]. left. split; [done|]. intros k.
      rewrite (debited_insert k reqs tasks i _ _ _ Hr Ht). unfold charge. cbn. lia. }
    destruct (all_products_exist orderItems db) eqn:Hall; cbn [negb fst snd]; cycle 1.
    { split; [apply Hins, state_responded|]. left. split; [done|]. intros k.
      rewrite (debited_insert k reqs tasks i _ _ _ Hr Ht). unfold charge. cbn. lia. }
    destruct (stock_fits orderItems db); cbn [negb fst snd]; cycle 1.
    { split; [apply Hins, state_responded|]. left. split; [done|]. intros k.
      rewrite (debited_insert k reqs tasks i _ _ _ Hr Ht). unfold charge. cbn. lia. }
    split; [apply Hins, state_responded|]. right. right.
    exists newId, userId, orderItems. split; [done|].
    split; [by apply bool_decide_eq_true in Hu|]. split; [done|]. intros k.
    rewrite (debited_insert k reqs tasks i _ _ _ Hr Ht). unfold charge. cbn. lia.
Qed.

Lemma task_state_received (reqs : list Request) :
  Forall2 task_state reqs (map task_of reqs).
Proof. induction reqs; constructor; [apply state_received|done]. Qed.

Lemma debited_received (k : Id) (reqs : list Request) :
  debited k reqs (map task_of reqs) = 0.
Proof.
  unfold debited. induction reqs as [|req reqs IH]; [done|].
  cbn [map zip_with foldr]. rewrite IH. unfold charge. by destruct req.
Qed.

Lemma run_cons (i : nat) (schedule : list nat) (st : Db * list Task) :
  run (i :: schedule) st = run schedule (step i st).
Proof. done. Qed.

Lemma run_integrity_from (reqs : list Request) (schedule : list nat)
    (tasks : list Task) (db : Db) :
  Forall2 task_state reqs tasks -> integrity db ->
  integrity (run schedule (db, tasks)).1.
Proof.
  revert tasks db. induction schedule as [|i schedule IH]; intros tasks db Hst Hdb;
    [done|].
  rewrite run_cons.
  destruct (step_transition reqs tasks db i Hst) as [Hst' Hdb'].
  destruct (step i (db, tasks)) as [db1 tasks1]. cbn [fst snd] in *.
  apply IH; [done|].
  destruct Hdb' as [[-> _]|[(req & _ & -> & _)|(newId & userId & orderItems & -> & Hu & Hall & _)]].
  - done.
  - by apply Integrity.handle_integrity.
  - by apply Integrity.placed_integrity.
Qed.

(** X8: the foreign keys hold in every state that several requests in
    flight can reach, whatever the order in which their datastore calls are
    served: every order item has its order and its product, every order its
    user. *)
Theorem run_integrity (reqs : list Request) (schedule : list nat) (db : Db) :
  integrity db -> integrity (run schedule (db, map task_of reqs)).1.
Proof. apply (run_integrity_from reqs), task_state_received. Qed.

Lemma run_integrity_witness :
  integrity (run [0; 1; 2; 0; 1]%nat
               (shop 10, map task_of [PlaceOrder O1 U [line P 6];
                                      PlaceOrder O2 U [line P 6];
                                      DeleteProduct P])).1.
Proof. apply run_integrity, integrity_shop. Defined.

Lemma run_stock_from (reqs : list Request) (schedule : list nat)
    (tasks : list Task) (db : Db) (k : Id) (p : Product) :
  Forall2 task_state reqs tasks ->
  products (run schedule (db, tasks)).1 !! k = Some p ->
  exists p0, products db !! k = Some p0
             /\ p = decrement (debited k reqs (run schedule (db, tasks)).2
                               - debited k reqs tasks) p0.
Proof.
  revert tasks db. induction schedule as [|i schedule IH]; intros tasks db Hst Hp.
  - exists p. split; [done|]. cbn. by rewrite Z.sub_diag, decrement_0.
  - rewrite run_cons in Hp |- *.
    destruct (step_transition reqs tasks db i Hst) as [Hst' Hdb'].
    destruct (step i (db, tasks)) as [db1 tasks1]. cbn [fst snd] in *.
    destruct (IH tasks1 db1 Hst' Hp) as (p1 & Hp1 & ->).
    destruct Hdb' as [[-> Hd]|[(req & Hreq & -> & Hd)|(newId & userId & orderItems & -> & _ & _ & Hd)]].
    + exists p1. by rewrite Hd.
    + exists p1. split; [by apply (handle_other req db Hreq)|]. by rewrite Hd.
    + cbn [placed products] in Hp1. rewrite lookup_decrement_all in Hp1.
      destruct (products db !! k) as [p0|]; [|done]. cbn in Hp1. injection Hp1 as <-.
      exists p0. split; [done|]. rewrite decrement_decrement, Hd. f_equal.
      cbn [debit]. lia.
Qed.

(** X9: no decrement is lost, whatever the interleaving. In every state
    that requests in flight can reach, a product that is still there has
    its initial stock minus the debits of the placements answered 201 so
    far, and its price. (The stock check does not bound that sum.) *)
Theorem run_stock_accounting (reqs : list Request) (schedule : list nat) (db : Db)
    (k : Id) (p : Product) :
  products (run schedule (db, map task_of reqs)).1 !! k = Some p ->
  exists p0,
    products db !! k = Some p0
    /\ price p = price p0
    /\ stock p = stock p0 - debited k reqs (run schedule (db, map task_of reqs)).2.
Proof.
  intros Hp.
  destruct (run_stock_from reqs schedule _ db k p (task_state_received reqs) Hp)
    as (p0 & Hp0 & ->).
  exists p0. rewrite debited_received. split; [done|]. split; [done|]. cbn. lia.
Qed.

Lemma run_stock_accounting_witness :
  exists p0,
    products (shop 10) !! P = Some p0
    /\ price {| stock := -2; price := 5.0%float |} = price p0
    /\ stock {| stock := -2; price := 5.0%float |}
       = stock p0
         - debited P [PlaceOrder O1 U [line P 6]; PlaceOrder O2 U [line P 6]]
             (run [0; 1; 0; 1]%nat
                (shop 10, map task_of [PlaceOrder O1 U [line P 6];
                                       PlaceOrder O2 U [line P 6]])).2.
Proof.
  apply (run_stock_accounting
           [PlaceOrder O1 U [line P 6]; PlaceOrder O2 U [line P 6]]
           [0; 1; 0; 1]%nat (shop 10) P {| stock := -2; price := 5.0%float |}).
  vm_compute. reflexivity.
Defined.

End RaceFacts.

(* ===================================================================== *)
(** ** Sessions: login, [auth], logout *)
(* ===================================================================== *)

Module SessionFacts.
Import Js Prisma App Accounts Sample JsFacts.

Section Session.

Variable bcrypt_compare : jsstring -> jsstring -> bool.
Variable Login : jsstring * jsstring -> bool.

(** [auth], case by case. *)
Lemma auth_eq (cookie : option jsstring) (db : Db) :
  auth bcrypt_compare cookie db =
    match cookie with
    | Some ((_ :: _) as token) =>
        match decode_token token with
        | (Some ((_ :: _) as userId), Some ((_ :: _) as password)) =>
            match users db !! userId with
            | None => Denied (Send 404 NoBody)
            | Some user =>
                if bcrypt_compare password (Prisma.password user)
                then ReqUser userId user else Denied invalid_token
            end
        | _ => Denied invalid_format
        end
    | _ => Denied no_token
    end.
Proof.
  unfold auth. destruct cookie as [[|c token]|]; [done| |done].
  cbn [truthy negb string_of].
  destruct (decode_token (c :: token)) as [[[|a userId]|] [[|b password]|]]; try done.
  cbn [truthy negb orb string_of]. unfold user_findUniqueOrThrow.
  destruct (users db !! (a :: userId)) as [user|]; [|done].
  by destruct (bcrypt_compare (b :: password) (Prisma.password user)).
Qed.

(** X10: with a token cookie that is a string, [auth] lets a request
    through only when the token decodes, as base64 and then ASCII, to a text
    whose first piece is the non-empty id of an existing user and whose
    second piece is non-empty and passes [bcrypt.compare] against the stored
    hash of that user; the user put in [req.user] is that row. *)
Theorem auth_sound (cookie : option jsstring) (db : Db) (id : Id) (user : User) :
  auth bcrypt_compare cookie db = ReqUser id user ->
  exists token password,
    cookie = Some token
    /\ decode_token token = (Some id, Some password)
    /\ id <> [] /\ password <> []
    /\ users db !! id = Some user
    /\ bcrypt_compare password (Prisma.password user) = true.
Proof.
  rewrite auth_eq. destruct cookie as [[|c token]|]; [done| |done].
  destruct (decode_token (c :: token)) as [[[|a userId]|] [[|b password]|]] eqn:E;
    try done.
  destruct (users db !! (a :: userId)) as [u|] eqn:Hu; [|done].
  destruct (bcrypt_compare (b :: password) (Prisma.password u)) eqn:Hc; [|done].
  intros [= <- <-]. by exists (c :: token), (b :: password).
Qed.

(** X11: with a token cookie that is a string without U+0000 in the id
    it decodes to, a request that [auth] stops is answered 401 or 404 by
    [auth] itself, never handed to [next]: 401 without a cookie, with a
    token that does not decode to two non-empty pieces, or with a password
    that fails the comparison; 404 when the first piece is not the id of a
    user. *)
Theorem auth_refusals (cookie : option jsstring) (db : Db) (r : Response) :
  id_without_nul cookie ->
  auth bcrypt_compare cookie db = Denied r ->
  (r = no_token /\ truthy cookie = false)
  \/ (r = invalid_format
      /\ (truthy (decode_token (string_of cookie)).1 = false
          \/ truthy (decode_token (string_of cookie)).2 = false))
  \/ (r = Send 404 NoBody
      /\ exists id, (decode_token (string_of cookie)).1 = Some id /\ users db !! id = None)
  \/ (r = invalid_token
      /\ exists id password user,
           decode_token (string_of cookie) = (Some id, Some password)
           /\ users db !! id = Some user
           /\ bcrypt_compare password (Prisma.password user) = false).
Proof.
  intros _. rewrite auth_eq. destruct cookie as [[|c token]|];
    [intros [= <-]; by left| |intros [= <-]; by left].
  cbn [string_of].
  destruct (decode_token (c :: token)) as [[[|a userId]|] [[|b password]|]] eqn:E;
    try (intros [= <-]; right; left; split; [done|]; cbn; by auto).
  destruct (users db !! (a :: userId)) as [u|] eqn:Hu.
  - destruct (bcrypt_compare (b :: password) (Prisma.password u)) eqn:Hc; [done|].
    intros [= <-]. do 3 right. split; [done|]. by exists (a :: userId), (b :: password), u.
  - intros [= <-]. right. right. left. split; [done|]. by exists (a :: userId).
Qed.

End Session.

Lemma auth_sound_witness :
  exists token password,
    Some (js "dTE6c2VjcmV0") = Some token
    /\ decode_token token = (Some U, Some password)
    /\ U <> [] /\ password <> []
    /\ users (members (js "secret")) !! U = Some {| email := js "u1@example.com";
                                                    password := js "secret" |}
    /\ same_password password (js "secret") = true.
Proof.
  apply (auth_sound same_password (Some (js "dTE6c2VjcmV0")) (members (js "secret")) U
           {| email := js "u1@example.com"; password := js "secret" |}).
  vm_compute. reflexivity.
Defined.

Lemma auth_refusals_witness :
  (Send 404 NoBody = no_token /\ truthy (Some (js "dTI6c2VjcmV0")) = false)
  \/ (Send 404 NoBody = invalid_format
      /\ (truthy (decode_token (string_of (Some (js "dTI6c2VjcmV0")))).1 = false
          \/ truthy (decode_token (string_of (Some (js "dTI6c2VjcmV0")))).2 = false))
  \/ (Send 404 NoBody = Send 404 NoBody
      /\ exists id, (decode_token (string_of (Some (js "dTI6c2VjcmV0")))).1 = Some id
                    /\ users (members (js "secret")) !! id = None)
  \/ (Send 404 NoBody = invalid_token
      /\ exists id password user,
           decode_token (string_of (Some (js "dTI6c2VjcmV0"))) = (Some id, Some password)
           /\ users (members (js "secret")) !! id = Some user
           /\ same_password password (Prisma.password user) = false).
Proof.
  apply (auth_refusals same_password (Some (js "dTI6c2VjcmV0")) (members (js "secret"))).
  - intros id. vm_compute. intros [= <-] H.
    repeat (apply elem_of_cons in H as [H|H]; [discriminate H|]).
    by apply elem_of_nil in H.
  - vm_compute. reflexivity.
Defined.

Section Tokens.

Variable bcrypt_compare : jsstring -> jsstring -> bool.
Variable Login : jsstring * jsstring -> bool.

(** X12: a login has three answers: 400 from the struct check, the cookie
    with the token of the user found by email when the password passes
    [bcrypt.compare], and otherwise one and the same 401, whether no user
    has the email or the password is wrong; only the second sets a cookie. *)
Theorem POST_auth_login_answers (e password : jsstring) (db : Db) :
  let r := POST_auth_login bcrypt_compare Login e password db in
  (Login (e, password) = false /\ r = Send 400 (ErrorMessage StructError))
  \/ (Login (e, password) = true
      /\ (user_findUnique_email e db = None
          \/ exists id user, user_findUnique_email e db = Some (id, user)
                             /\ bcrypt_compare password (Prisma.password user) = false)
      /\ r = invalid_credentials)
  \/ (Login (e, password) = true
      /\ exists id user, user_findUnique_email e db = Some (id, user)
                         /\ bcrypt_compare password (Prisma.password user) = true
                         /\ r = SendWithCookie (login_token id password) 200
                                  (Message "Logged in successfully")).
Proof.
  cbv zeta. unfold POST_auth_login, assert.
  destruct (Login (e, password)); [|by left]. cbn.
  destruct (user_findUnique_email e db) as [[id user]|]; [|right; left; by auto].
  destruct (bcrypt_compare password (Prisma.password user)) eqn:Hc.
  - right. right. split; [done|]. by exists id, user.
  - right. left. split; [done|]. split; [|done]. right. by exists id, user.
Qed.

(** The token matters to [auth] only through its two first pieces. *)
Lemma auth_same_pieces (t1 t2 : jsstring) (db : Db) :
  t1 <> [] -> t2 <> [] -> decode_token t1 = decode_token t2 ->
  auth bcrypt_compare (Some t1) db = auth bcrypt_compare (Some t2) db.
Proof.
  intros H1 H2 E. rewrite !SessionFacts.auth_eq.
  destruct t1; [done|]. destruct t2; [done|]. by rewrite E.
Qed.

Lemma toString_ascii_app (b1 b2 : buffer) :
  toString_ascii (b1 ++ b2) = toString_ascii b1 ++ toString_ascii b2.
Proof. unfold toString_ascii. apply map_app. Qed.

Lemma not_surrogate_colon :
  is_high_surrogate colon = false /\ is_low_surrogate colon = false.
Proof. done. Qed.

(** The decoded text of the base64 of [id:rest], for an ASCII id. *)
Lemma decoded_id_colon (id rest : jsstring) :
  is_ascii id ->
  toString_ascii (Buffer_from_base64 (toString_base64 (Buffer_from (id ++ colon :: rest))))
  = id ++ colon :: toString_ascii (Buffer_from rest).
Proof.
  intros Hid. rewrite Buffer_from_base64_toString.
  rewrite Buffer_from_app by done.
  by rewrite !toString_ascii_app, toString_ascii_Buffer_from.
Qed.

Lemma token_nonempty (id rest : jsstring) :
  is_ascii id -> id <> [] -> toString_base64 (Buffer_from (id ++ rest)) <> [].
Proof.
  intros Hid Hne. destruct id as [|c id]; [done|].
  apply Forall_cons in Hid as [Hc _]. cbn [app Buffer_from].
  replace (is_high_surrogate c) with false
    by (unfold is_high_surrogate; symmetry; apply andb_false_intro1, N.leb_gt; lia).
  replace (is_low_surrogate c) with false
    by (unfold is_low_surrogate; symmetry; apply andb_false_intro1, N.leb_gt; lia).
  rewrite utf8_ascii by done. by destruct (Buffer_from (id ++ rest)) as [|y [|z l]].
Qed.

(** X13: [auth] reads the two first pieces of the decoded token and
    ignores the rest: a token made from [id:password:anything] is treated
    exactly as the token of [id:password]. *)
Theorem auth_ignores_more_pieces (id password more : jsstring) (db : Db) :
  is_ascii id -> is_ascii password -> colon ∉ id -> colon ∉ password -> id <> [] ->
  auth bcrypt_compare
    (Some (toString_base64 (Buffer_from (id ++ colon :: password ++ colon :: more)))) db
  = auth bcrypt_compare (Some (login_token id password)) db.
Proof.
  intros Hid Hpw Hcid Hcpw Hne.
  apply auth_same_pieces; [by apply token_nonempty..|].
  unfold decode_token, login_token. rewrite !decoded_id_colon by done.
  rewrite Buffer_from_app by done. rewrite !toString_ascii_app.
  rewrite !toString_ascii_Buffer_from by done.
  change (toString_ascii (utf8_of_code_point colon)) with [colon].
  rewrite !split_app by done. cbn [app]. rewrite split_app by done.
  by rewrite (split_no_sep colon password).
Qed.

(** X14: the token determines the credentials: two pairs of an id
    without ':' and a password, all ASCII, that get the same token are the
    same pair. *)
Theorem login_token_inj (id id' password password' : jsstring) :
  is_ascii id -> is_ascii id' -> is_ascii password -> is_ascii password' ->
  colon ∉ id -> colon ∉ id' ->
  login_token id password = login_token id' password' ->
  id = id' /\ password = password'.
Proof.
  intros Hid Hid' Hpw Hpw' Hc Hc' E.
  apply (f_equal (fun t => toString_ascii (Buffer_from_base64 t))) in E.
  unfold login_token in E. rewrite !decoded_id_colon in E by done.
  rewrite !toString_ascii_Buffer_from in E by done.
  assert (id = id') as <-.
  { apply (f_equal (split colon)) in E. rewrite !split_app in E by done.
    by injection E. }
  apply app_inv_head in E. by injection E.
Qed.

End Tokens.

Lemma is_ascii_check (s : jsstring) :
  forallb (fun c => (c <? 128)%N) s = true -> is_ascii s.
Proof.
  intros H. apply Forall_forall. intros c Hc.
  rewrite forallb_forall in H. apply N.ltb_lt, H. by apply list_elem_of_In.
Qed.

Lemma no_colon_check (s : jsstring) :
  forallb (fun c => negb (c =? colon)%N) s = true -> colon ∉ s.
Proof.
  intros H Hc. rewrite forallb_forall in H.
  apply list_elem_of_In, H in Hc. by rewrite N.eqb_refl in Hc.
Qed.

Lemma auth_ignores_more_pieces_witness :
  auth same_password
    (Some (toString_base64 (Buffer_from (U ++ colon :: js "secret" ++ colon :: js "x"))))
    (members (js "secret"))
  = auth same_password (Some (login_token U (js "secret"))) (members (js "secret")).
Proof.
  apply auth_ignores_more_pieces.
  - apply is_ascii_check. reflexivity.
  - apply is_ascii_check. reflexivity.
  - apply no_colon_check. reflexivity.
  - apply no_colon_check. reflexivity.
  - discriminate.
Defined.

Lemma login_token_inj_witness : U = U /\ js "secret" = js "secret".
Proof.
  apply login_token_inj.
  - apply is_ascii_check. reflexivity.
  - apply is_ascii_check. reflexivity.
  - apply is_ascii_check. reflexivity.
  - apply is_ascii_check. reflexivity.
  - apply no_colon_check. reflexivity.
  - apply no_colon_check. reflexivity.
  - reflexivity.
Defined.

Section Users.

Variable bcrypt_compare : jsstring -> jsstring -> bool.
Variable bcrypt_hash : jsstring -> jsstring -> jsstring.
Variable Login CreateUser : jsstring * jsstring -> bool.
Variable PatchUser : option jsstring * option jsstring -> bool.

(** What [auth] does with the token of [id:password] when [id] is a user. *)
Lemma auth_login_token (id password : jsstring) (db : Db) (user : User) :
  is_ascii id -> is_ascii password -> colon ∉ id -> colon ∉ password ->
  id <> [] -> password <> [] -> users db !! id = Some user ->
  auth bcrypt_compare (Some (login_token id password)) db
  = if bcrypt_compare password (Prisma.password user)
    then ReqUser id user else Denied invalid_token.
Proof.
  intros Hid Hpw Hcid Hcpw Hne Hpne Hu. rewrite auth_eq.
  destruct (login_token id password) as [|t token] eqn:E.
  - exfalso. revert E. by apply token_nonempty.
  - rewrite <- E, Token.decode_login_token by done.
    destruct id as [|a id]; [done|]. destruct password as [|b password]; [done|].
    by rewrite Hu.
Qed.

(** The row a login finds, when emails are unique. *)
Lemma user_findUnique_email_unique (db : Db) (id : Id) (user : User) :
  unique_emails db -> users db !! id = Some user ->
  user_findUnique_email (email user) db = Some (id, user).
Proof.
  intros Huniq Hu. unfold user_findUnique_email.
  destruct (List.find _ _) as [[j v]|] eqn:E.
  - apply find_some in E as [Hin He]. apply bool_decide_eq_true in He. cbn in He.
    apply list_elem_of_In, elem_of_map_to_list in Hin.
    assert (j = id) as -> by (by eapply Huniq). congruence.
  - pose proof (find_none _ _ E (id, user)) as Hn. cbn in Hn.
    rewrite bool_decide_eq_true_2 in Hn by done.
    discriminate Hn. by apply list_elem_of_In, elem_of_map_to_list.
Qed.

Lemma email_taken_false (e : jsstring) (db : Db) :
  email_taken e db = false <-> forall j v, users db !! j = Some v -> email v <> e.
Proof.
  unfold email_taken, user_findUnique_email. rewrite bool_decide_eq_false. split.
  - intros H j v Hv He. apply H.
    destruct (List.find _ _) as [x|] eqn:E; [by eexists|].
    pose proof (find_none _ _ E (j, v)) as Hn. cbn in Hn.
    rewrite bool_decide_eq_true_2 in Hn by done.
    discriminate Hn. by apply list_elem_of_In, elem_of_map_to_list.
  - intros H [[j v] E]. apply find_some in E as [Hin He].
    apply bool_decide_eq_true in He. cbn in He.
    apply list_elem_of_In, elem_of_map_to_list in Hin. by eapply H.
Qed.

(** [POST /users], case by case. *)
Lemma POST_users_eq (newId salt e password : jsstring) (db : Db) :
  POST_users bcrypt_hash CreateUser newId salt e password db =
    let user := {| email := e; password := bcrypt_hash salt password |} in
    if negb (CreateUser (e, password)) then (db, NoUser (Send 400 (ErrorMessage StructError)))
    else if bool_decide (is_Some (users db !! newId)) || email_taken e db
    then (db, NoUser (Next P2002))
    else (set_users <[newId := user]> db, SendUser 201 newId user).
Proof.
  unfold POST_users, assert, user_create. cbn.
  destruct (CreateUser (e, password)); [|done]. cbn.
  destruct (bool_decide (is_Some (users db !! newId))); [done|].
  by destruct (email_taken e db).
Qed.

(** [PATCH /users/:id], case by case. *)
Lemma PATCH_users_id_eq (id salt : jsstring) (e password : option jsstring) (db : Db) :
  PATCH_users_id bcrypt_hash PatchUser id salt e password db =
    if negb (PatchUser (e, password)) then (db, NoUser (Send 400 (ErrorMessage StructError)))
    else match users db !! id with
         | None => (db, NoUser (Send 404 NoBody))
         | Some user =>
             let user' :=
               {| email := default (email user) e;
                  password :=
                    match password with
                    | Some ((_ :: _) as plain) => bcrypt_hash salt plain
                    | Some [] => []
                    | None => Prisma.password user
                    end |} in
             if email_taken (email user') (set_users (delete id) db)
             then (db, NoUser (Next P2002))
             else (set_users <[id := user']> db, SendUser 200 id user')
         end.
Proof.
  unfold PATCH_users_id, assert, user_update.
  destruct (PatchUser (e, password)); [|done]. cbn [negb].
  destruct (users db !! id) as [user|]; [|done].
  destruct password as [[|c plain]|]; cbn [truthy string_of email];
    destruct (email_taken _ _); reflexivity.
Qed.

End Users.

Section Journeys.

Variable bcrypt_compare : jsstring -> jsstring -> bool.
Variable bcrypt_hash : jsstring -> jsstring -> jsstring.
Variable Login CreateUser : jsstring * jsstring -> bool.
Variable PatchUser : option jsstring * option jsstring -> bool.

(** X15: when the ids of the users are non-empty ASCII strings without
    ':' and the password is one too, a client that logs in and then asks for
    [GET /users/me] with the cookie it was given gets the row of the user
    whose email it logged in with; after [POST /auth/logout] has cleared the
    cookie, the same request is refused with 401, no token provided. *)
Theorem login_me_logout (e password : jsstring) (db : Db) (jar : option jsstring)
    (token : jsstring) (status : Z) (body : Body) :
  POST_auth_login bcrypt_compare Login e password db = SendWithCookie token status body ->
  plain_ids db ->
  is_ascii password -> colon ∉ password -> password <> [] ->
  let r := SendWithCookie token status body in
  (exists id user,
     users db !! id = Some user /\ email user = e
     /\ GET_users_me bcrypt_compare (next_cookie (cookie_of r) jar) db = SendUser 200 id user)
  /\ GET_users_me bcrypt_compare
       (next_cookie POST_auth_logout.1 (next_cookie (cookie_of r) jar)) db
     = NoUser no_token.
Proof.
  intros H Hids Hpw Hcpw Hne. cbv zeta. split; [|done].
  apply Token.POST_auth_login_cookie in H as (id & user & Hfind & Hcmp & ->).
  apply Token.user_findUnique_email_Some in Hfind as [Hu He].
  destruct (Hids id) as (Hid & Hcid & Hidne); [by eexists|].
  exists id, user. split; [done|]. split; [done|].
  unfold GET_users_me. cbn [cookie_of next_cookie].
  by rewrite (auth_login_token bcrypt_compare id password db user), Hcmp.
Qed.

(** X16: changing the password through [PATCH /users/:id] revokes the
    tokens issued before, when the id and the two passwords are non-empty
    ASCII strings without ':' and [bcrypt.compare] tells the old password
    from the new hash: the token carries the old password, which [auth]
    compares with the new hash on every request. A token made with the new
    password is accepted. *)
Theorem PATCH_password_revokes_token (id salt : jsstring) (e : option jsstring)
    (old new : jsstring) (db db' : Db) (status : Z) (id' : Id) (user' : User) :
  PATCH_users_id bcrypt_hash PatchUser id salt e (Some new) db
    = (db', SendUser status id' user') ->
  new <> [] ->
  bcrypt_compare old (bcrypt_hash salt new) = false ->
  bcrypt_compare new (bcrypt_hash salt new) = true ->
  is_ascii id -> colon ∉ id -> id <> [] ->
  is_ascii old -> colon ∉ old -> old <> [] ->
  is_ascii new -> colon ∉ new ->
  Prisma.password user' = bcrypt_hash salt new
  /\ auth bcrypt_compare (Some (login_token id old)) db' = Denied invalid_token
  /\ auth bcrypt_compare (Some (login_token id new)) db' = ReqUser id user'.
Proof.
  intros H Hnew Hold Hcmp Hid Hcid Hidne Ho Hco Hone Hn Hcn.
  rewrite PATCH_users_id_eq in H.
  destruct (PatchUser (e, Some new)); [|done]. cbn [negb] in H.
  destruct (users db !! id) as [user|]; [|done]. cbv zeta in H.
  destruct new as [|c new]; [done|].
  destruct (email_taken _ _); [done|]. injection H as <- _ _ <-.
  assert (users (set_users <[id := {| email := default (email user) e;
                                      password := bcrypt_hash salt (c :: new) |}]> db)
          !! id
          = Some {| email := default (email user) e;
                    password := bcrypt_hash salt (c :: new) |}) as Hu
    by (cbn; apply lookup_insert_eq).
  split; [done|]. split.
  - rewrite (auth_login_token bcrypt_compare id old _ _ Hid Ho Hcid Hco Hidne Hone Hu).
    cbn [Prisma.password]. by rewrite Hold.
  - rewrite (auth_login_token bcrypt_compare id (c :: new) _ _ Hid Hn Hcid Hcn Hidne Hnew Hu).
    cbn [Prisma.password]. by rewrite Hcmp.
Qed.

(** X17: a user created through [POST /users] can log in with the email
    and the password of the request: the row stores the hash of the
    password, and the login finds that row and no other. *)
Theorem POST_users_then_login (newId salt e password : jsstring) (db db' : Db)
    (status : Z) (id : Id) (user : User) :
  POST_users bcrypt_hash CreateUser newId salt e password db
    = (db', SendUser status id user) ->
  Login (e, password) = true ->
  bcrypt_compare password (bcrypt_hash salt password) = true ->
  id = newId
  /\ user = {| email := e; password := bcrypt_hash salt password |}
  /\ POST_auth_login bcrypt_compare Login e password db'
     = SendWithCookie (login_token newId password) 200 (Message "Logged in successfully").
Proof.
  intros H HL Hcmp. rewrite POST_users_eq in H. cbv zeta in H.
  destruct (CreateUser (e, password)); [|done]. cbn [negb] in H.
  destruct (bool_decide (is_Some (users db !! newId))); [done|].
  destruct (email_taken e db) eqn:Htaken; [done|]. cbn [orb] in H.
  injection H as <- _ <- <-. split; [done|]. split; [done|].
  unfold POST_auth_login, assert. rewrite HL. cbn.
  assert (user_findUnique_email e
            (set_users <[newId := {| email := e; password := bcrypt_hash salt password |}]> db)
          = Some (newId, {| email := e; password := bcrypt_hash salt password |})) as ->.
  { unfold user_findUnique_email. destruct (List.find _ _) as [[j v]|] eqn:E.
    - apply find_some in E as [Hin He]. apply bool_decide_eq_true in He. cbn in He.
      apply list_elem_of_In, elem_of_map_to_list in Hin. cbn in Hin.
      apply lookup_insert_Some in Hin as [[<- <-]|[_ Hj]]; [done|].
      by destruct (proj1 (email_taken_false e db) Htaken j v Hj).
    - pose proof (find_none _ _ E
                    (newId, {| email := e; password := bcrypt_hash salt password |})) as Hn.
      cbn in Hn. rewrite bool_decide_eq_true_2 in Hn by done.
      discriminate Hn. apply list_elem_of_In, elem_of_map_to_list. cbn.
      apply lookup_insert_eq. }
  cbn [Prisma.password]. by rewrite Hcmp.
Qed.

(** X18: [POST /users] and [PATCH /users/:id] keep the emails unique: a
    request that would give two users the same email fails with P2002 and
    changes nothing. *)
Theorem users_keep_unique_emails (db : Db) :
  unique_emails db ->
  (forall newId salt e password,
     unique_emails (POST_users bcrypt_hash CreateUser newId salt e password db).1)
  /\ (forall id salt e password,
        unique_emails (PATCH_users_id bcrypt_hash PatchUser id salt e password db).1).
Proof.
  intros Huniq. split.
  - intros newId salt e password. rewrite POST_users_eq. cbv zeta.
    destruct (CreateUser (e, password)); [|done]. cbn [negb].
    destruct (bool_decide (is_Some (users db !! newId))); [done|]. cbn [orb].
    destruct (email_taken e db) eqn:Htaken; [done|]. cbn [fst].
    intros i j u v. cbn [set_users users]. rewrite !lookup_insert_Some.
    intros [[<- <-]|[Hi Hu]] [[<- <-]|[Hj Hv]] He; cbn in He; try done.
    + by destruct (proj1 (email_taken_false e db) Htaken j v Hv).
    + by destruct (proj1 (email_taken_false e db) Htaken i u Hu).
    + by eapply Huniq.
  - intros id salt e password. rewrite PATCH_users_id_eq.
    destruct (PatchUser (e, password)); [|done]. cbn [negb].
    destruct (users db !! id) as [user|]; [|done]. cbv zeta.
    destruct (email_taken _ _) eqn:Htaken; [done|]. cbn [fst].
    pose proof (proj1 (email_taken_false _ _) Htaken) as Hfree.
    cbn [email set_users users] in Hfree.
    intros i j u v. cbn [set_users users]. rewrite !lookup_insert_Some.
    intros [[<- <-]|[Hi Hu]] [[<- <-]|[Hj Hv]] He; cbn in He; try done.
    + destruct (Hfree j v); [by rewrite lookup_delete_ne|done].
    + destruct (Hfree i u); [by rewrite lookup_delete_ne|done].
    + by eapply Huniq.
Qed.

End Journeys.

Lemma plain_ids_members (password : jsstring) : plain_ids (members password).
Proof.
  intros id [u Hu]. unfold members in Hu. cbn in Hu.
  apply lookup_singleton_Some in Hu as [<- _].
  split; [by apply is_ascii_check|]. split; [by apply no_colon_check|done].
Qed.

Lemma unique_emails_members (password : jsstring) : unique_emails (members password).
Proof.
  intros i j u v Hu Hv _. unfold members in Hu, Hv. cbn in Hu, Hv.
  apply lookup_singleton_Some in Hu as [<- _].
  by apply lookup_singleton_Some in Hv as [<- _].
Qed.

Lemma login_me_logout_witness :
  (exists id user,
     users (members (js "secret")) !! id = Some user /\ email user = js "u1@example.com"
     /\ GET_users_me same_password
          (next_cookie (cookie_of (SendWithCookie (js "dTE6c2VjcmV0") 200
                                     (Message "Logged in successfully"))) None)
          (members (js "secret"))
        = SendUser 200 id user)
  /\ GET_users_me same_password
       (next_cookie POST_auth_logout.1
          (next_cookie (cookie_of (SendWithCookie (js "dTE6c2VjcmV0") 200
                                     (Message "Logged in successfully"))) None))
       (members (js "secret"))
     = NoUser no_token.
Proof.
  apply (login_me_logout same_password any_login (js "u1@example.com") (js "secret")).
  - vm_compute. reflexivity.
  - apply plain_ids_members.
  - apply is_ascii_check. reflexivity.
  - apply no_colon_check. reflexivity.
  - discriminate.
Defined.

Lemma PATCH_password_revokes_token_witness :
  auth same_password (Some (login_token U (js "secret")))
    (PATCH_users_id plain_hash any_patch U (js "salt") None (Some (js "fresh"))
       (members (js "secret"))).1
  = Denied invalid_token.
Proof.
  refine (proj1 (proj2 (PATCH_password_revokes_token same_password plain_hash any_patch
            U (js "salt") None (js "secret") (js "fresh") (members (js "secret")) _ 200 U
            {| email := js "u1@example.com"; password := js "fresh" |}
            _ _ _ _ _ _ _ _ _ _ _ _))).
  - vm_compute. reflexivity.
  - discriminate.
  - reflexivity.
  - reflexivity.
  - apply is_ascii_check. reflexivity.
  - apply no_colon_check. reflexivity.
  - discriminate.
  - apply is_ascii_check. reflexivity.
  - apply no_colon_check. reflexivity.
  - discriminate.
  - apply is_ascii_check. reflexivity.
  - apply no_colon_check. reflexivity.
Defined.

(** Without the conditions on the passwords the old token may survive:
    the token of the old password "x:y" is read as the password "x", which
    is the new one. *)
Example PATCH_password_colon_token_survives :
  auth same_password (Some (login_token U (js "x:y")))
    (PATCH_users_id plain_hash any_patch U (js "salt") None (Some (js "x"))
       (members (js "x:y"))).1
  = ReqUser U {| email := js "u1@example.com"; password := js "x" |}.
Proof. by vm_compute. Qed.

(** A login with a password that holds a ':' succeeds, and the cookie it
    sets is refused by [GET /users/me]. *)
Example login_colon_password_then_me :
  exists token,
    POST_auth_login same_password any_login (js "u1@example.com") (js "a:b")
      (members (js "a:b"))
    = SendWithCookie token 200 (Message "Logged in successfully")
    /\ GET_users_me same_password (Some token) (members (js "a:b")) = NoUser invalid_token.
Proof. eexists. split; [by vm_compute|]. by vm_compute. Qed.

Lemma POST_users_then_login_witness :
  POST_auth_login same_password any_login (js "u2@example.com") (js "pw2")
    (POST_users plain_hash any_login (js "u2") (js "salt") (js "u2@example.com") (js "pw2")
       (members (js "secret"))).1
  = SendWithCookie (login_token (js "u2") (js "pw2")) 200 (Message "Logged in successfully").
Proof.
  refine (proj2 (proj2 (POST_users_then_login same_password plain_hash any_login any_login
            (js "u2") (js "salt") (js "u2@example.com") (js "pw2") (members (js "secret"))
            _ 201 (js "u2") {| email := js "u2@example.com"; password := js "pw2" |}
            _ _ _))).
  - vm_compute. reflexivity.
  - reflexivity.
  - reflexivity.
Defined.

Lemma users_keep_unique_emails_witness :
  unique_emails
    (POST_users plain_hash any_login (js "u2") (js "salt") (js "u1@example.com") (js "pw2")
       (members (js "secret"))).1.
Proof.
  apply (proj1 (users_keep_unique_emails plain_hash any_login any_patch
                  (members (js "secret")) (unique_emails_members (js "secret")))).
Defined.

Section Patch.

Variable bcrypt_hash : jsstring -> jsstring -> jsstring.
Variable PatchUser : option jsstring * option jsstring -> bool.

(** X22: [PATCH /users/:id] either changes nothing (400 from the struct,
    404 when no user has the id, P2002 when another user has the email), or
    answers 200 with the patched row, which it has written under the id and
    which [GET /users/:id] then returns. The row has the email of the body,
    and as its password the hash of the password of the body (an empty
    password is stored as it is); a field that the body leaves out keeps its
    value, and the other users, the products and the orders are as before. *)
Theorem PATCH_users_id_effect (id salt : jsstring) (e password : option jsstring)
    (db : Db) :
  let db' := (PATCH_users_id bcrypt_hash PatchUser id salt e password db).1 in
  let r := (PATCH_users_id bcrypt_hash PatchUser id salt e password db).2 in
  (db' = db
   /\ (r = NoUser (Send 400 (ErrorMessage StructError))
       \/ (r = NoUser (Send 404 NoBody) /\ users db !! id = None)
       \/ r = NoUser (Next P2002)))
  \/ (exists user user',
        users db !! id = Some user
        /\ r = SendUser 200 id user'
        /\ GET_users_id id db' = SendUser 200 id user'
        /\ (e = None -> email user' = email user)
        /\ (password = None -> Prisma.password user' = Prisma.password user)
        /\ (forall j, j <> id -> GET_users_id j db' = GET_users_id j db)
        /\ products db' = products db /\ orders db' = orders db
        /\ orderItems db' = orderItems db
        /\ users db' = <[id := user']> (users db)
        /\ (forall e', e = Some e' -> email user' = e')
        /\ (forall plain, password = Some plain ->
              Prisma.password user' = if truthy (Some plain) then bcrypt_hash salt plain
                                      else plain)).
Proof.
  cbv zeta. rewrite PATCH_users_id_eq.
  destruct (PatchUser (e, password)); [|left; by auto]. cbn [negb].
  destruct (users db !! id) as [user|] eqn:Hu; [|left; by auto]. cbv zeta.
  destruct (email_taken _ _); [left; by auto|]. right. cbn [fst snd].
  eexists user, _. split; [done|]. split; [done|].
  split; [|split; [|split; [|split; [|split; [|split; [|split; [|split; [|split]]]]]]]].
  - unfold GET_users_id, user_findUniqueOrThrow. cbn. by rewrite lookup_insert_eq.
  - by intros ->.
  - by intros ->.
  - intros j Hj. unfold GET_users_id, user_findUniqueOrThrow. cbn.
    by rewrite lookup_insert_ne.
  - done.
  - done.
  - done.
  - done.
  - by intros e' ->.
  - intros plain ->. by destruct plain.
Qed.

End Patch.

End SessionFacts.

(* ===================================================================== *)
(** ** Saving and unsaving a product *)
(* ===================================================================== *)

Module SavedFacts.
Import Js Prisma App Routes Accounts Saved Sample.

Local Open Scope Z_scope.
Local Set Warnings "-clear-no-such-hyp".

Lemma toggled_toggled (userId productId : Id) (st : Store) :
  toggled userId productId (toggled userId productId st) = st.
Proof.
  destruct st as [db l]. unfold toggled. cbn [links data].
  destruct (decide ((userId, productId) ∈ l)) as [Hin|Hout].
  - rewrite (bool_decide_eq_true_2 _ Hin). cbn [links data].
    rewrite bool_decide_eq_false_2 by set_solver. cbn [links data]. f_equal.
    apply set_eq. intros x. destruct (decide (x = (userId, productId))); set_solver.
  - rewrite (bool_decide_eq_false_2 _ Hout). cbn [links data].
    rewrite bool_decide_eq_true_2 by set_solver. cbn [links data]. f_equal.
    set_solver.
Qed.

Lemma data_toggled (userId productId : Id) (st : Store) :
  data (toggled userId productId st) = data st.
Proof. unfold toggled. by destruct (bool_decide _). Qed.

Section Toggle.

Variable bcrypt_compare : jsstring -> jsstring -> bool.
Variable PostSavedProduct : Id -> bool.

Lemma auth_ReqUser (cookie : option jsstring) (db : Db) (id : Id) (user : User) :
  auth bcrypt_compare cookie db = ReqUser id user -> users db !! id = Some user.
Proof.
  rewrite SessionFacts.auth_eq. destruct cookie as [[|c token]|]; [done| |done].
  destruct (decode_token (c :: token)) as [[[|a userId]|] [[|b password]|]]; try done.
  destruct (users db !! (a :: userId)) as [u|] eqn:Hu; [|done].
  destruct (bcrypt_compare (b :: password) (Prisma.password u)); [|done].
  by intros [= <- <-].
Qed.

(** [POST /users/me/saved-products] for a user that [auth] let through and
    a product that exists. *)
Lemma POST_saved_eq (cookie : option jsstring) (userId productId : Id) (user : User)
    (st : Store) :
  auth bcrypt_compare cookie (data st) = ReqUser userId user ->
  PostSavedProduct productId = true ->
  is_Some (products (data st) !! productId) ->
  POST_users_me_saved_products bcrypt_compare PostSavedProduct cookie productId st
  = (toggled userId productId st,
     SendRows (if bool_decide ((userId, productId) ∈ links st) then 200 else 201)
              (savedProducts userId (toggled userId productId st))).
Proof.
  intros Hauth Hs [p Hp]. pose proof (auth_ReqUser _ _ _ _ Hauth) as Hu.
  unfold POST_users_me_saved_products, assert, toggled. rewrite Hauth, Hs.
  unfold user_count_saved, user_disconnect, user_connect. rewrite Hu, Hp.
  destruct (decide ((userId, productId) ∈ links st)) as [Hin|Hout].
  - rewrite !bool_decide_eq_true_2; [done|done|]. split; [by eexists|done].
  - rewrite !bool_decide_eq_false_2; [done|done|]. by intros [_ ?].
Qed.

(** X19: [POST /users/me/saved-products] is a toggle. For a user that
    [auth] lets through and a product that exists, it answers 201 and saves
    the product when it was not saved, answers 200 and unsaves it when it
    was, touches nothing but that one link, and sending the same request
    twice leaves the saved products as they were. *)
Theorem saved_products_toggle (cookie : option jsstring) (userId productId : Id)
    (user : User) (st : Store) :
  auth bcrypt_compare cookie (data st) = ReqUser userId user ->
  PostSavedProduct productId = true ->
  is_Some (products (data st) !! productId) ->
  let post := POST_users_me_saved_products bcrypt_compare PostSavedProduct cookie productId in
  (exists rows,
     (post st).2
     = SendRows (if bool_decide ((userId, productId) ∈ links st) then 200 else 201) rows)
  /\ data (post st).1 = data st
  /\ (forall link, link <> (userId, productId) ->
        link ∈ links (post st).1 <-> link ∈ links st)
  /\ ((userId, productId) ∈ links (post st).1 <-> (userId, productId) ∉ links st)
  /\ (post (post st).1).1 = st.
Proof.
  intros Hauth Hs Hp. cbv zeta.
  rewrite (POST_saved_eq _ _ _ _ _ Hauth Hs Hp). cbn [fst snd].
  split; [by eexists|]. split; [apply data_toggled|].
  split; [|split].
  - intros link Hne. unfold toggled. destruct (bool_decide _); cbn; set_solver.
  - unfold toggled. destruct (decide ((userId, productId) ∈ links st)).
    + rewrite bool_decide_eq_true_2 by done. cbn. set_solver.
    + rewrite bool_decide_eq_false_2 by done. cbn. set_solver.
  - rewrite (POST_saved_eq _ userId _ user).
    + cbn [fst]. apply toggled_toggled.
    + by rewrite data_toggled.
    + done.
    + by rewrite data_toggled.
Qed.

(** X20: the rows [POST /users/me/saved-products] answers with are the
    saved products of the user after the change: the products of the
    datastore linked to that user, which is also what
    [GET /users/me/saved-products] answers next. *)
Theorem saved_products_rows (cookie : option jsstring) (userId productId : Id)
    (user : User) (st : Store) (status : Z) (rows : list (Id * Product)) :
  auth bcrypt_compare cookie (data st) = ReqUser userId user ->
  PostSavedProduct productId = true ->
  is_Some (products (data st) !! productId) ->
  let post := POST_users_me_saved_products bcrypt_compare PostSavedProduct cookie productId in
  (post st).2 = SendRows status rows ->
  GET_users_me_saved_products bcrypt_compare cookie (post st).1 = SendRows 200 rows
  /\ forall id p,
       (id, p) ∈ rows
       <-> products (data st) !! id = Some p /\ (userId, id) ∈ links (post st).1.
Proof.
  intros Hauth Hs Hp. cbv zeta.
  rewrite (POST_saved_eq _ _ _ _ _ Hauth Hs Hp). cbn [fst snd]. intros [= _ <-].
  split.
  - unfold GET_users_me_saved_products. rewrite data_toggled, Hauth.
    unfold user_findUniqueOrThrow. by rewrite (auth_ReqUser _ _ _ _ Hauth).
  - intros id p. unfold savedProducts. rewrite list_elem_of_filter, data_toggled.
    rewrite elem_of_map_to_list. cbn [fst]. tauto.
Qed.

End Toggle.

Lemma saved_products_toggle_witness :
  let post := POST_users_me_saved_products same_password any_product
                (Some (login_token U (js "hash"))) P in
  (post (post (nothing_saved (shop 10))).1).1 = nothing_saved (shop 10).
Proof.
  refine (proj2 (proj2 (proj2 (proj2
    (saved_products_toggle same_password any_product (Some (login_token U (js "hash")))
       U P {| email := js "u1@example.com"; password := js "hash" |}
       (nothing_saved (shop 10)) _ _ _))))).
  - vm_compute. reflexivity.
  - reflexivity.
  - vm_compute. by eexists.
Defined.

Lemma saved_products_rows_witness :
  GET_users_me_saved_products same_password (Some (login_token U (js "hash")))
    (POST_users_me_saved_products same_password any_product
       (Some (login_token U (js "hash"))) P (nothing_saved (shop 10))).1
  = SendRows 200 [(P, {| stock := 10; price := 5.0%float |})].
Proof.
  refine (proj1 (saved_products_rows same_password any_product
            (Some (login_token U (js "hash"))) U P
            {| email := js "u1@example.com"; password := js "hash" |}
            (nothing_saved (shop 10)) 201 [(P, {| stock := 10; price := 5.0%float |})]
            _ _ _ _)).
  - vm_compute. reflexivity.
  - reflexivity.
  - vm_compute. by eexists.
  - vm_compute. reflexivity.
Defined.

End SavedFacts.
